(** * Cadence: comments, deprecated path capabilities, capability migration

    A shallow embedding of
    - [runtime/ast/comments.go] (comment classification),
    - [runtime/interpreter/value_pathcapability.go] (the deprecated
      path capability value: members, equality, encoding),
    - [migrations/capcons/capabilitymigration.go] (the migration of
      path capabilities to id capabilities and its skip predicate),
    together with a model of interface conformance checking, whose
    implementation lives in the [sema] package. *)

From Stdlib.Strings Require Import Byte.
From stdpp Require Import base option list strings gmap.

Open Scope string_scope.
Open Scope list_scope.

Set Warnings "-register-all".

(** ** Go's [bytes] package, as far as [comments.go] uses it *)

Module bytes.

#[global] Instance byte_eq_decision : EqDecision byte := Byte.byte_eq_dec.

Definition Equal (a b : list byte) : bool := bool_decide (a = b).

(** [len(s) >= len(prefix) && Equal(s[0:len(prefix)], prefix)] *)
Definition HasPrefix (s prefix : list byte) : bool :=
  (length prefix <=? length s)%nat && Equal (take (length prefix) s) prefix.

(** [len(s) >= len(suffix) && Equal(s[len(s)-len(suffix):], suffix)] *)
Definition HasSuffix (s suffix : list byte) : bool :=
  (length suffix <=? length s)%nat
  && Equal (drop (length s - length suffix) s) suffix.

(** [CutPrefix] returns [s] without the leading [prefix] and reports
    whether it found the prefix; without it, [s] comes back unchanged. *)
Definition CutPrefix (s prefix : list byte) : list byte * bool :=
  if negb (HasPrefix s prefix)
  then (s, false)
  else (drop (length prefix) s, true).

(** [CutSuffix] returns [s] without the trailing [suffix] and reports
    whether it found the suffix; without it, [s] comes back unchanged. *)
Definition CutSuffix (s suffix : list byte) : list byte * bool :=
  if negb (HasSuffix s suffix)
  then (s, false)
  else (take (length s - length suffix) s, true).

End bytes.

(** ** [runtime/ast/comments.go] *)

Module ast.

Record Comment := NewComment { source : list byte }.

(** ['/'] is [0x2f] and ['*'] is [0x2a]. *)
Definition blockCommentDocStringPrefix : list byte := [x2f; x2a; x2a]. (* "/**" *)
Definition blockCommentStringPrefix : list byte := [x2f; x2a].         (* "/*"  *)
Definition lineCommentDocStringPrefix : list byte := [x2f; x2f; x2f].  (* "///" *)
Definition lineCommentStringPrefix : list byte := [x2f; x2f].          (* "//"  *)
Definition blockCommentStringSuffix : list byte := [x2a; x2f].         (* "*/"  *)

Definition Multiline (c : Comment) : bool :=
  bytes.HasPrefix (source c) blockCommentStringPrefix.

Definition Doc (c : Comment) : bool :=
  if Multiline c
  then bytes.HasPrefix (source c) blockCommentDocStringPrefix
  else bytes.HasPrefix (source c) lineCommentDocStringPrefix.

Definition cutOptionalPrefixes (input : list byte) (prefixes : list (list byte))
  : list byte :=
  fold_left (fun output prefix => (bytes.CutPrefix output prefix).1) prefixes input.

Definition cutOptionalSuffixes (input : list byte) (suffixes : list (list byte))
  : list byte :=
  fold_left (fun output suffix => (bytes.CutSuffix output suffix).1) suffixes input.

(** Text without opening/closing comment characters. *)
Definition Text (c : Comment) : list byte :=
  let withoutPrefixes :=
    cutOptionalPrefixes (source c)
      [ blockCommentDocStringPrefix; (* check before blockCommentStringPrefix *)
        blockCommentStringPrefix;
        lineCommentDocStringPrefix;  (* check before lineCommentStringPrefix *)
        lineCommentStringPrefix ] in
  cutOptionalSuffixes withoutPrefixes [blockCommentStringSuffix].

(** "the comment's source starts with [p]" *)
Definition starts_with (c : Comment) (p : list byte) : Prop :=
  exists rest, source c = (p ++ rest)%list.

End ast.

(** ** Go panics and [runtime/errors] *)

Module errors.

(** A Go [error] value, by its message. *)
Definition error := string.

(** The internal errors a panic carries; the string is the format of
    the message. *)
Inductive InternalError :=
| UnexpectedError (format : string)
| UnreachableError.

(** A Go call either returns or panics. *)
Inductive outcome (A : Type) :=
| Returned (a : A)
| Panicked (e : InternalError).
Arguments Returned {A} a.
Arguments Panicked {A} e.

End errors.

(** ** [runtime/common]: addresses, path domains, type identifiers

    The declarations of the package that the code below refers to. *)

Module common.

(** [Address] is [[8]byte]; it is represented by the number the eight
    bytes spell out. *)
Definition Address := N.

Definition TypeID := string.

(** [PathDomain] is a [uint8] enumeration.  The migration's [switch]
    has a [default] arm next to storage, private and public, which is
    the arm of [PathDomainUnknown]. *)
Inductive PathDomain :=
| PathDomainUnknown
| PathDomainStorage
| PathDomainPrivate
| PathDomainPublic.

#[global] Instance PathDomain_eq_dec : EqDecision PathDomain.
Proof. solve_decision. Defined.

Definition PathDomain_to_nat (d : PathDomain) : nat :=
  match d with
  | PathDomainUnknown => 0
  | PathDomainStorage => 1
  | PathDomainPrivate => 2
  | PathDomainPublic => 3
  end.

Definition PathDomain_of_nat (n : nat) : option PathDomain :=
  match n with
  | 0 => Some PathDomainUnknown
  | 1 => Some PathDomainStorage
  | 2 => Some PathDomainPrivate
  | 3 => Some PathDomainPublic
  | _ => None
  end.

#[global] Program Instance PathDomain_countable : Countable PathDomain :=
  inj_countable PathDomain_to_nat PathDomain_of_nat _.
Next Obligation. by intros []. Qed.

End common.

(** ** [runtime/sema]: what the interpreter and the migration use of it *)

Module sema.

(** An authorization is either unauthorized or a set of entitlements. *)
Inductive Authorization :=
| Unauthorized
| EntitlementSet (entitlements : list common.TypeID).

#[global] Instance Authorization_eq_dec : EqDecision Authorization.
Proof. solve_decision. Defined.

(** Semantic types, reduced to the variants the code below tells
    apart.  Primitive, composite and interface types are nominal. *)
Inductive Type_ :=
| NominalType (id : common.TypeID)
| IntersectionType (interfaces : list common.TypeID)
| OptionalType (inner : Type_)
| ReferenceTypeOf (authorization : Authorization) (referenced : Type_)
| CapabilityType (borrow : option Type_).

Fixpoint Type_eq_dec (a b : Type_) {struct a} : Decision (a = b).
Proof.
  refine
    (match a, b with
     | NominalType i, NominalType j => cast_if (decide (i = j))
     | IntersectionType i, IntersectionType j => cast_if (decide (i = j))
     | OptionalType t, OptionalType u => cast_if (Type_eq_dec t u)
     | ReferenceTypeOf x t, ReferenceTypeOf y u =>
         cast_if_and (decide (x = y)) (Type_eq_dec t u)
     | CapabilityType None, CapabilityType None => left _
     | CapabilityType (Some t), CapabilityType (Some u) => cast_if (Type_eq_dec t u)
     | _, _ => right _
     end); clear Type_eq_dec; abstract congruence.
Defined.
#[global] Instance Type_eq_decision : EqDecision Type_ := Type_eq_dec.

(** The struct behind a pointer to a [sema.ReferenceType]. *)
Record ReferenceType := {
  Authorization_ : Authorization;
  Type__ : Type_;
}.

(** The type assertion of [ty] to a pointer to [sema.ReferenceType]. *)
Definition asReferenceType (ty : Type_) : option ReferenceType :=
  match ty with
  | ReferenceTypeOf a t => Some {| Authorization_ := a; Type__ := t |}
  | _ => None
  end.

Definition NumberType : Type_ := NominalType "Number".
Definition PathType : Type_ := NominalType "Path".

(** The types of the [borrow] and [check] members of a capability
    with the given borrow type. *)
Inductive FunctionType :=
| CapabilityTypeBorrowFunctionType (borrowType : option ReferenceType)
| CapabilityTypeCheckFunctionType (borrowType : option ReferenceType).

Definition CapabilityTypeBorrowFunctionName : string := "borrow".
Definition CapabilityTypeCheckFunctionName : string := "check".
Definition CapabilityTypeAddressFieldName : string := "address".
Definition CapabilityTypeIDFieldName : string := "id".

End sema.

(** ** [runtime/interpreter]: static types and values

    The static types and values that [value_pathcapability.go] and the
    migration refer to, then [value_pathcapability.go] itself. *)

Module interpreter.
Import errors common.

(** [PrimitiveStaticType] is a [uint8] enumeration.  The constants
    that the migration names are constructors; every other primitive
    (numbers, paths, deprecated account types, ...) is [Other] with
    its code. *)
Inductive PrimitiveStaticType :=
| PrimitiveStaticTypeCapability
| PrimitiveStaticTypeBool
| PrimitiveStaticTypeVoid
| PrimitiveStaticTypeAddress
| PrimitiveStaticTypeMetaType
| PrimitiveStaticTypeBlock
| PrimitiveStaticTypeString
| PrimitiveStaticTypeCharacter
| PrimitiveStaticTypeOther (code : N).

#[global] Instance PrimitiveStaticType_eq_dec : EqDecision PrimitiveStaticType.
Proof. solve_decision. Defined.

Inductive Authorization :=
| Unauthorized
| EntitlementSetAuthorization (entitlements : list TypeID)
| EntitlementMapAuthorization (typeID : TypeID).

#[global] Instance Authorization_eq_dec : EqDecision Authorization.
Proof. solve_decision. Defined.

(** A value of the interface [StaticType].  A nil interface value is
    [None] of [option StaticType]. *)
Inductive StaticType :=
| PrimitiveStaticTypeOf (p : PrimitiveStaticType)
| OptionalStaticType (Type_ : StaticType)
| DictionaryStaticType (KeyType ValueType : StaticType)
| VariableSizedStaticType (Type_ : StaticType)
| ConstantSizedStaticType (Type_ : StaticType) (Size : Z)
| CapabilityStaticType (BorrowType : option StaticType)
| ReferenceStaticTypeOf (authorization : Authorization) (ReferencedType : StaticType)
| CompositeStaticType (typeID : TypeID)
| InterfaceStaticType (typeID : TypeID)
| IntersectionStaticType (Types : list TypeID).

Fixpoint StaticType_eq_dec (a b : StaticType) {struct a} : Decision (a = b).
Proof.
  refine
    (match a, b with
     | PrimitiveStaticTypeOf p, PrimitiveStaticTypeOf q => cast_if (decide (p = q))
     | OptionalStaticType t, OptionalStaticType u => cast_if (StaticType_eq_dec t u)
     | DictionaryStaticType k v, DictionaryStaticType k' v' =>
         cast_if_and (StaticType_eq_dec k k') (StaticType_eq_dec v v')
     | VariableSizedStaticType t, VariableSizedStaticType u =>
         cast_if (StaticType_eq_dec t u)
     | ConstantSizedStaticType t n, ConstantSizedStaticType u m =>
         cast_if_and (StaticType_eq_dec t u) (decide (n = m))
     | CapabilityStaticType None, CapabilityStaticType None => left _
     | CapabilityStaticType (Some t), CapabilityStaticType (Some u) =>
         cast_if (StaticType_eq_dec t u)
     | ReferenceStaticTypeOf x t, ReferenceStaticTypeOf y u =>
         cast_if_and (decide (x = y)) (StaticType_eq_dec t u)
     | CompositeStaticType i, CompositeStaticType j => cast_if (decide (i = j))
     | InterfaceStaticType i, InterfaceStaticType j => cast_if (decide (i = j))
     | IntersectionStaticType i, IntersectionStaticType j => cast_if (decide (i = j))
     | _, _ => right _
     end); clear StaticType_eq_dec; abstract congruence.
Defined.
#[global] Instance StaticType_eq_decision : EqDecision StaticType := StaticType_eq_dec.

(** Modelled from the spec: [StaticType.Equal] (static_types.go is
    missing).  The type model exposes [equal]; two static types are
    equal when they have the same structure, and no static type is
    equal to a nil [other]. *)
Definition StaticType_Equal (t : StaticType) (other : option StaticType) : bool :=
  match other with
  | Some u => bool_decide (t = u)
  | None => false
  end.

(** The struct behind a pointer to a [ReferenceStaticType]. *)
Record ReferenceStaticType := {
  Authorization_ : Authorization;
  ReferencedType_ : StaticType;
}.

#[global] Instance ReferenceStaticType_eq_dec : EqDecision ReferenceStaticType.
Proof. solve_decision. Defined.

(** A pointer to a [ReferenceStaticType] used as a [StaticType]. *)
Definition ReferenceStaticType_asStaticType (r : ReferenceStaticType) : StaticType :=
  ReferenceStaticTypeOf (Authorization_ r) (ReferencedType_ r).

(** The type assertion of a [StaticType] interface value to a pointer
    to [ReferenceStaticType]; it fails on nil and on every other
    kind of static type. *)
Definition asReferenceStaticType (t : option StaticType) : option ReferenceStaticType :=
  match t with
  | Some (ReferenceStaticTypeOf a u) => Some {| Authorization_ := a; ReferencedType_ := u |}
  | _ => None
  end.

Definition AddressValue := Address.
Definition UInt64Value := N.

Record PathValue := {
  Domain : PathDomain;
  Identifier : string;
}.

#[global] Instance PathValue_eq_dec : EqDecision PathValue.
Proof. solve_decision. Defined.

Record AddressPath := {
  AddressPath_Address : Address;
  AddressPath_Path : PathValue;
}.

#[global] Instance AddressPath_eq_dec : EqDecision AddressPath.
Proof. solve_decision. Defined.

Record StorageKey := {
  Key : string;
  StorageKey_Address : Address;
}.

(** Deprecated: [PathCapabilityValue] *)
Record PathCapabilityValue := {
  BorrowType : option StaticType;
  Path : PathValue;
  address : AddressValue;
}.

(** The id capability that replaces it. *)
Record IDCapabilityValue := {
  IDCapabilityValue_BorrowType : option StaticType;
  IDCapabilityValue_Address : AddressValue;
  ID : UInt64Value;
}.

(** A value of the interface [Value].  Function values are kept apart
    (see [BoundFunctionValue]). *)
Inductive Value :=
| NilValue
| BoolValue (b : bool)
| UInt64 (n : UInt64Value)
| StringValue (s : string)
| Address_ (a : AddressValue)
| Path_ (p : PathValue)
| SomeValue (v : Value)
| ArrayValue (elementType : StaticType) (values : list Value)
| PathCapability (c : PathCapabilityValue)
| IDCapability (c : IDCapabilityValue).

(** The type assertion of a value to a path capability value
    succeeds. *)
Definition isPathCapability (value : Value) : bool :=
  match value with
  | PathCapability _ => true
  | _ => false
  end.

Definition Nil : Value := NilValue.
Definition TrueValue : Value := BoolValue true.
Definition FalseValue : Value := BoolValue false.

(** Capability id [0] is reserved. *)
Definition InvalidCapabilityID : Value := UInt64 0%N.

Definition NewUnmeteredPathCapabilityValue
  (borrowType : option StaticType) (address : AddressValue) (path : PathValue)
  : PathCapabilityValue :=
  {| BorrowType := borrowType; address := address; Path := path |}.

Definition NewUnmeteredCapabilityValue
  (capabilityID : UInt64Value) (address : AddressValue) (borrowType : option StaticType)
  : IDCapabilityValue :=
  {| IDCapabilityValue_BorrowType := borrowType;
     IDCapabilityValue_Address := address;
     ID := capabilityID |}.

(** *** The interpreter, invocations and bound host functions *)

(** Account storage: account address, domain, identifier. *)
Definition Storage := gmap (Address * string * string) Value.

(** An interpreter holds the storage it runs against and resolves
    static types to semantic types; [MustConvertStaticToSemaType]
    panics when the conversion fails. *)
Record Interpreter := {
  Interpreter_Storage : Storage;
  MustConvertStaticToSemaType : StaticType -> outcome sema.Type_;
}.

Record Invocation := {
  Invocation_Interpreter : Interpreter;
  Invocation_Self : option Value;
  Arguments : list Value;
  TypeParameterTypes : list sema.Type_;
}.

(** [NewBoundHostFunctionValue(interpreter, self, funcType, function)] *)
Record BoundFunctionValue := NewBoundHostFunctionValue {
  Self : Value;
  Type_ : sema.FunctionType;
  Function : Invocation -> Value;
}.

(** Invoking a bound function runs the host function with the bound
    receiver as [Self] of the invocation. *)
Definition invoke (f : BoundFunctionValue) (invocation : Invocation) : Value :=
  Function f
    {| Invocation_Interpreter := Invocation_Interpreter invocation;
       Invocation_Self := Some (Self f);
       Arguments := Arguments invocation;
       TypeParameterTypes := TypeParameterTypes invocation |}.

(** What [GetMember] hands out: a value or a function. *)
Inductive Member :=
| MemberValue (v : Value)
| MemberFunction (f : BoundFunctionValue).

(** *** [value_pathcapability.go] *)

Definition IsImportable (v : PathCapabilityValue) : bool := false.

Definition PathCapabilityValue_StaticType (v : PathCapabilityValue) : StaticType :=
  CapabilityStaticType (BorrowType v).

Definition newBorrowFunction
  (v : PathCapabilityValue) (interpreter : Interpreter)
  (borrowType : option sema.ReferenceType) : BoundFunctionValue :=
  NewBoundHostFunctionValue
    (PathCapability v)
    (sema.CapabilityTypeBorrowFunctionType borrowType)
    (fun _ =>
       (* Borrowing is never allowed *)
       Nil).

Definition newCheckFunction
  (v : PathCapabilityValue) (interpreter : Interpreter)
  (borrowType : option sema.ReferenceType) : BoundFunctionValue :=
  NewBoundHostFunctionValue
    (PathCapability v)
    (sema.CapabilityTypeCheckFunctionType borrowType)
    (fun _ =>
       (* Borrowing is never allowed *)
       FalseValue).

(** The borrow type that [GetMember] computes for the function type:
    nil without a static borrow type; otherwise the converted type
    when it is a reference type, and nil when it is not.  The
    conversion may panic. *)
Definition semaBorrowType (v : PathCapabilityValue) (interpreter : Interpreter)
  : outcome (option sema.ReferenceType) :=
  match BorrowType v with
  | Some staticBorrowType =>
      match MustConvertStaticToSemaType interpreter staticBorrowType with
      | Returned ty => Returned (sema.asReferenceType ty)
      | Panicked e => Panicked e
      end
  | None => Returned None
  end.

(** A nil result is [Returned None]. *)
Definition GetMember (v : PathCapabilityValue) (interpreter : Interpreter) (name : string)
  : outcome (option Member) :=
  if String.eqb name sema.CapabilityTypeBorrowFunctionName then
    match semaBorrowType v interpreter with
    | Returned borrowType =>
        Returned (Some (MemberFunction (newBorrowFunction v interpreter borrowType)))
    | Panicked e => Panicked e
    end
  else if String.eqb name sema.CapabilityTypeCheckFunctionName then
    match semaBorrowType v interpreter with
    | Returned borrowType =>
        Returned (Some (MemberFunction (newCheckFunction v interpreter borrowType)))
    | Panicked e => Panicked e
    end
  else if String.eqb name sema.CapabilityTypeAddressFieldName then
    Returned (Some (MemberValue (Address_ (address v))))
  else if String.eqb name sema.CapabilityTypeIDFieldName then
    Returned (Some (MemberValue InvalidCapabilityID))
  else
    Returned None.

Definition RemoveMember (v : PathCapabilityValue) (name : string) : outcome Value :=
  Panicked UnreachableError.

Definition SetMember (v : PathCapabilityValue) (name : string) (value : Value)
  : outcome bool :=
  Panicked UnreachableError.

Definition ConformsToStaticType (v : PathCapabilityValue) : bool := true.

(** Modelled from the spec: [AddressValue.Equal] (the file of address
    values is missing).  Equatable values are compared structurally,
    and a value of another kind is never equal. *)
Definition AddressValue_Equal (v : AddressValue) (other : Value) : bool :=
  match other with
  | Address_ otherAddress => bool_decide (v = otherAddress)
  | _ => false
  end.

(** Modelled from the spec: [PathValue.Equal] (the file of path
    values is missing).  Two paths are equal when their identifiers
    and domains are; a value of another kind is never equal. *)
Definition PathValue_Equal (v : PathValue) (other : Value) : bool :=
  match other with
  | Path_ otherPath =>
      bool_decide (Identifier otherPath = Identifier v)
      && bool_decide (Domain otherPath = Domain v)
  | _ => false
  end.

Definition Equal (v : PathCapabilityValue) (interpreter : Interpreter) (other : Value)
  : bool :=
  match other with
  | PathCapability otherCapability =>
      let rest :=
        AddressValue_Equal (address otherCapability) (Address_ (address v))
        && PathValue_Equal (Path otherCapability) (Path_ (Path v)) in
      (* BorrowType is optional *)
      match BorrowType v with
      | None =>
          match BorrowType otherCapability with
          | Some _ => false
          | None => rest
          end
      | Some borrowType =>
          if negb (StaticType_Equal borrowType (BorrowType otherCapability))
          then false
          else rest
      end
  | _ => false
  end.

(** "Whose borrow type matches (both absent, or both present and
    equal)." *)
Definition borrowTypeMatches (v o : PathCapabilityValue) : Prop :=
  (BorrowType v = None /\ BorrowType o = None)
  \/ (exists a b, BorrowType v = Some a /\ BorrowType o = Some b /\ a = b).

Definition IsStorable (v : PathCapabilityValue) : bool := true.

Definition IsResourceKinded (v : PathCapabilityValue) : bool := false.

Definition PathCapabilityValue_AddressPath (v : PathCapabilityValue) : AddressPath :=
  {| AddressPath_Address := address v; AddressPath_Path := Path v |}.

Definition PathCapabilityValue_Address (v : PathCapabilityValue) : AddressValue :=
  address v.

(** *** Rendering *)

Section Strings.

(** [SeenReferences] and the renderings of addresses, paths and static
    types are declared with those values and types. *)
Variable SeenReferences : Type.
Variable emptySeenReferences : SeenReferences.
Variable AddressValue_RecursiveString : AddressValue -> SeenReferences -> string.
Variable PathValue_RecursiveString : PathValue -> SeenReferences -> string.
Variable StaticType_String : StaticType -> string.

(** [fmt.Sprintf] with [%s] verbs puts the arguments in their places. *)
Definition RecursiveString (v : PathCapabilityValue) (seenReferences : SeenReferences)
  : string :=
  let borrowType := BorrowType v in
  match borrowType with
  | None =>
      "Capability(address: "
      +:+ AddressValue_RecursiveString (address v) seenReferences
      +:+ ", path: "
      +:+ PathValue_RecursiveString (Path v) seenReferences
      +:+ ")"
  | Some borrowType =>
      "Capability<"
      +:+ StaticType_String borrowType
      +:+ ">(address: "
      +:+ AddressValue_RecursiveString (address v) seenReferences
      +:+ ", path: "
      +:+ PathValue_RecursiveString (Path v) seenReferences
      +:+ ")"
  end.

Definition String_ (v : PathCapabilityValue) : string :=
  RecursiveString v emptySeenReferences.

End Strings.

(** *** Encoding *)

(** The CBOR stream of an [atree.Encoder]: the bytes written so far. *)
Definition Encoder := list byte.

(** NOTE: NEVER change, only add/increment.  It is used to verify the
    encoded capability length during decoding. *)
Definition encodedPathCapabilityValueLength : N := 3.

Section Encode.

(** The tag number is a constant of encode.go, and the encoders of
    the stream and of the three fields belong to the CBOR library
    and to other files.  Each takes the stream and returns it with
    the error, if any. *)
Variable CBORTagPathCapabilityValue : byte.
Variable EncodeRawBytes : list byte -> Encoder -> Encoder * option error.
Variable EncodeNil : Encoder -> Encoder * option error.
Variable AddressValue_Encode : AddressValue -> Encoder -> Encoder * option error.
Variable PathValue_Encode : PathValue -> Encoder -> Encoder * option error.
Variable StaticType_Encode : StaticType -> Encoder -> Encoder * option error.

Definition Encode (v : PathCapabilityValue) (e : Encoder) : Encoder * option error :=
  (* Encode tag number and array head *)
  let '(e, err) :=
    EncodeRawBytes
      [ (* tag number *)
        xd8; CBORTagPathCapabilityValue;
        (* array, 3 items follow *)
        x83 ] e in
  match err with
  | Some _ => (e, err)
  | None =>
      (* Encode address at array index 0 *)
      let '(e, err) := AddressValue_Encode (address v) e in
      match err with
      | Some _ => (e, err)
      | None =>
          (* Encode path at array index 1 *)
          let '(e, err) := PathValue_Encode (Path v) e in
          match err with
          | Some _ => (e, err)
          | None =>
              (* Encode borrow type at array index 2 *)
              match BorrowType v with
              | None => EncodeNil e
              | Some borrowType => StaticType_Encode borrowType e
              end
          end
      end
  end.

End Encode.

(** CBOR heads (RFC 8949): a tag whose number follows in one byte, an
    array of fewer than 24 items, and the simple value null. *)
Definition cborTagHead1 : byte := xd8.
Definition cborArrayHead (n : N) : option byte :=
  if (n <? 24)%N then Byte.of_N (128 + n) else None.
Definition cborNil : byte := xf6.

(** The encoding of the borrow type field, given the encoding of
    static types: nil when the borrow type is missing. *)
Definition borrowTypeBytes
  (staticTypeBytes : StaticType -> list byte) (borrowType : option StaticType)
  : list byte :=
  match borrowType with
  | None => [cborNil]
  | Some t => staticTypeBytes t
  end.

End interpreter.

(** ** [migrations/capcons/capabilitymigration.go] *)

Module capcons.
Import errors common interpreter.

#[global] Instance PathValue_countable : Countable PathValue :=
  inj_countable'
    (fun p => (Domain p, Identifier p))
    (fun '(d, i) => {| Domain := d; Identifier := i |})
    (fun p => match p with Build_PathValue _ _ => eq_refl end).

#[global] Instance AddressPath_countable : Countable AddressPath :=
  inj_countable'
    (fun p => (AddressPath_Address p, AddressPath_Path p))
    (fun '(a, p) => {| AddressPath_Address := a; AddressPath_Path := p |})
    (fun p => match p with Build_AddressPath _ _ => eq_refl end).

(** The side tables built by the link migration: (i) private/public
    path to (id, borrow type), (ii) (storage path, borrow type id) to
    id, (iii) storage path to (id, borrow type) for untyped entries.
    Tables (i) and (iii) are [PathCapabilityMapping]s, table (ii) is a
    [PathTypeCapabilityMapping]. *)
Abbreviation PathCapabilityMapping :=
  (gmap AddressPath (UInt64Value * ReferenceStaticType)).
Abbreviation PathTypeCapabilityMapping :=
  (gmap (AddressPath * TypeID) UInt64Value).

(** Modelled from the spec: [PathCapabilityMapping.Get] (mapping.go is
    missing).  The table maps an address-path to the id and the borrow
    type of the capability controller; [Get] returns them and whether
    there is an entry. *)
Definition PathCapabilityMapping_Get
  (m : PathCapabilityMapping) (addressPath : AddressPath)
  : option (UInt64Value * ReferenceStaticType) :=
  m !! addressPath.

(** Modelled from the spec: [PathTypeCapabilityMapping.Get] (mapping.go
    is missing).  The table maps an address-path and a borrow type id
    to the id of the capability controller. *)
Definition PathTypeCapabilityMapping_Get
  (m : PathTypeCapabilityMapping) (addressPath : AddressPath) (borrowTypeID : TypeID)
  : option UInt64Value :=
  m !! (addressPath, borrowTypeID).

(** The calls that the migration makes on a
    [CapabilityMigrationReporter], one constructor per method. *)
Inductive ReporterCall :=
| MigratedPathCapability
    (accountAddress : Address) (addressPath : AddressPath)
    (borrowType : ReferenceStaticType) (capabilityID : UInt64Value)
| MissingCapabilityID (accountAddress : Address) (addressPath : AddressPath)
| MissingBorrowType (accountAddress : Address) (addressPath : AddressPath).

(** A reporter is an object that receives these calls; what it does
    with them is its own business. *)
Variant CapabilityMigrationReporter := AReporter (name : string).

(** [CapabilityValueMigration] migrates all path capabilities to ID
    capabilities, using the path to ID capability controller mapping
    generated by the link migration.  [Reporter] is [None] when the
    field is nil. *)
Record CapabilityValueMigration := {
  PrivatePublicCapabilityMapping : PathCapabilityMapping;
  StorageCapabilityMapping : PathTypeCapabilityMapping;
  StorageCapabilityWithoutTypeMapping : PathCapabilityMapping;
  Reporter : option CapabilityMigrationReporter;
}.

Definition Name (m : CapabilityValueMigration) : string := "CapabilityValueMigration".

Definition Domains (m : CapabilityValueMigration) : option (list string) := None.

(** *** Effects: reporter calls and panics

    A computation yields the calls made on the reporter, in order,
    and then either returns or panics. *)
Definition Eff (A : Type) : Type := list ReporterCall * outcome A.

#[global] Instance Eff_ret : MRet Eff := fun A a => ([], Returned a).

#[global] Instance Eff_bind : MBind Eff := fun A B f c =>
  match c with
  | (calls, Returned a) => let '(calls', r) := f a in (calls ++ calls', r)
  | (calls, Panicked e) => (calls, Panicked e)
  end.

Definition panic {A : Type} (e : InternalError) : Eff A := ([], Panicked e).

(** [if reporter != nil { reporter.Method(...) }] *)
Definition report (reporter : option CapabilityMigrationReporter) (call : ReporterCall)
  : Eff unit :=
  match reporter with
  | Some _ => ([call], Returned tt)
  | None => ([], Returned tt)
  end.

Definition calls {A : Type} (c : Eff A) : list ReporterCall := fst c.
Definition result {A : Type} (c : Eff A) : outcome A := snd c.

(** *** The migration *)

Section Migration.

(** [StaticType.ID], the type identifier behind the keys of the
    typed storage table; it is declared with the static types. *)
Variable StaticType_ID : StaticType -> TypeID.

Definition migratePathCapabilityValue
  (m : CapabilityValueMigration)
  (oldCapability : PathCapabilityValue)
  (storageKey : StorageKey)
  : Eff (option Value * option error) :=
  let reporter := Reporter m in
  let capabilityAddressPath := PathCapabilityValue_AddressPath oldCapability in
  let oldBorrowType := BorrowType oldCapability in
  let targetPath := AddressPath_Path capabilityAddressPath in
  (* the three identical [if !ok] blocks of the switch *)
  let missing : Eff (option Value * option error) :=
    report reporter
      (MissingCapabilityID (StorageKey_Address storageKey) capabilityAddressPath);;
    mret (None, None) in
  (* the code after the switch *)
  let afterSwitch (capabilityID : UInt64Value) (oldBorrowType : option StaticType)
    : Eff (option Value * option error) :=
    match asReferenceStaticType oldBorrowType with
    | None => panic (UnexpectedError "unexpected non-reference borrow type: %T")
    | Some newBorrowType =>
        let newCapability :=
          NewUnmeteredCapabilityValue
            capabilityID
            (address oldCapability)
            (Some (ReferenceStaticType_asStaticType newBorrowType)) in
        report reporter
          (MigratedPathCapability
             (StorageKey_Address storageKey)
             capabilityAddressPath
             newBorrowType
             capabilityID);;
        mret (Some (IDCapability newCapability), None)
    end in
  match Domain targetPath with
  | PathDomainPrivate | PathDomainPublic =>
      match PathCapabilityMapping_Get
              (PrivatePublicCapabilityMapping m) capabilityAddressPath with
      | None => missing
      | Some (capabilityID, controllerBorrowType) =>
          (* Convert untyped path capability value to typed ID capability value
             by using capability controller's borrow type *)
          let oldBorrowType :=
            match oldBorrowType with
            | None => Some (ReferenceStaticType_asStaticType controllerBorrowType)
            | Some _ => oldBorrowType
            end in
          afterSwitch capabilityID oldBorrowType
      end
  | PathDomainStorage =>
      match oldBorrowType with
      | Some borrowType =>
          match PathTypeCapabilityMapping_Get
                  (StorageCapabilityMapping m)
                  capabilityAddressPath (StaticType_ID borrowType) with
          | None => missing
          | Some capabilityID => afterSwitch capabilityID oldBorrowType
          end
      | None =>
          match PathCapabilityMapping_Get
                  (StorageCapabilityWithoutTypeMapping m) capabilityAddressPath with
          | None => missing
          | Some (capabilityID, controllerBorrowType) =>
              afterSwitch capabilityID
                (Some (ReferenceStaticType_asStaticType controllerBorrowType))
          end
      end
  | PathDomainUnknown => panic (UnexpectedError "unexpected path domain: %s")
  end.

(** [Migrate] migrates a path capability to an ID capability in the
    given value.  If a value is returned, the value must be updated
    with the replacement in the parent.  If nil is returned, the
    value was not updated and no operation has to be performed. *)
Definition Migrate
  (m : CapabilityValueMigration)
  (storageKey : StorageKey)
  (storageMapKey : string)
  (value : Value)
  : Eff (option Value * option error) :=
  (* Migrate path capabilities to ID capabilities *)
  match value with
  | PathCapability pathCapabilityValue =>
      migratePathCapabilityValue m pathCapabilityValue storageKey
  | _ => mret (None, None)
  end.

End Migration.

(** *** The skip predicate *)

Section CanSkip.

(** [PrimitiveStaticType.IsDeprecated], [PrimitiveStaticType.SemaType]
    and [sema.IsSubType] are declared with the static and the semantic
    types. *)
Variable IsDeprecated : PrimitiveStaticType -> bool.
Variable SemaType : PrimitiveStaticType -> sema.Type_.
Variable IsSubType : sema.Type_ -> sema.Type_ -> bool.

Fixpoint CanSkipCapabilityValueMigration (valueType : StaticType) : bool :=
  match valueType with
  | DictionaryStaticType KeyType ValueType =>
      CanSkipCapabilityValueMigration KeyType
      && CanSkipCapabilityValueMigration ValueType
  | VariableSizedStaticType ElementType
  | ConstantSizedStaticType ElementType _ =>
      CanSkipCapabilityValueMigration ElementType
  | OptionalStaticType Type_ =>
      CanSkipCapabilityValueMigration Type_
  | CapabilityStaticType _ => false
  | PrimitiveStaticTypeOf valueType =>
      match valueType with
      | PrimitiveStaticTypeCapability => false
      | PrimitiveStaticTypeBool
      | PrimitiveStaticTypeVoid
      | PrimitiveStaticTypeAddress
      | PrimitiveStaticTypeMetaType
      | PrimitiveStaticTypeBlock
      | PrimitiveStaticTypeString
      | PrimitiveStaticTypeCharacter => true
      | _ =>
          if negb (IsDeprecated valueType) then
            let semaType := SemaType valueType in
            if IsSubType semaType sema.NumberType
               || IsSubType semaType sema.PathType
            then true
            else false
          else false
      end
  | _ => false
  end.

Definition CanSkip (m : CapabilityValueMigration) (valueType : StaticType) : bool :=
  CanSkipCapabilityValueMigration valueType.

End CanSkip.

(** *** The words of the specification *)

(** "The type transitively contains a capability type": it is a
    capability type, or one occurs in its key, value, element, inner
    or referenced type. *)
Fixpoint containsCapability (t : StaticType) : bool :=
  match t with
  | CapabilityStaticType _ => true
  | PrimitiveStaticTypeOf p => bool_decide (p = PrimitiveStaticTypeCapability)
  | DictionaryStaticType k v => containsCapability k || containsCapability v
  | VariableSizedStaticType e => containsCapability e
  | ConstantSizedStaticType e _ => containsCapability e
  | OptionalStaticType u => containsCapability u
  | ReferenceStaticTypeOf _ u => containsCapability u
  | CompositeStaticType _ | InterfaceStaticType _ | IntersectionStaticType _ => false
  end.

(** [t] is [inner] or holds it as the inner type of an optional, the
    element type of an array, or the key or value type of a
    dictionary, at any depth. *)
Inductive nests (inner : StaticType) : StaticType -> Prop :=
| nests_here : nests inner inner
| nests_optional t : nests inner t -> nests inner (OptionalStaticType t)
| nests_variable t : nests inner t -> nests inner (VariableSizedStaticType t)
| nests_constant t n : nests inner t -> nests inner (ConstantSizedStaticType t n)
| nests_key k v : nests inner k -> nests inner (DictionaryStaticType k v)
| nests_value k v : nests inner v -> nests inner (DictionaryStaticType k v).

(** The seven primitive types that the skip predicate names as
    skippable. *)
Definition namedSkippable (p : PrimitiveStaticType) : bool :=
  match p with
  | PrimitiveStaticTypeBool
  | PrimitiveStaticTypeVoid
  | PrimitiveStaticTypeAddress
  | PrimitiveStaticTypeMetaType
  | PrimitiveStaticTypeBlock
  | PrimitiveStaticTypeString
  | PrimitiveStaticTypeCharacter => true
  | _ => false
  end.

(** [t] is made of dictionaries, arrays and optionals over primitive
    types only, none of them [Capability], and each of them one of the
    seven named types or not deprecated. *)
Fixpoint onlyPrimitiveData (IsDeprecated : PrimitiveStaticType -> bool) (t : StaticType)
  : bool :=
  match t with
  | PrimitiveStaticTypeOf p =>
      negb (bool_decide (p = PrimitiveStaticTypeCapability))
      && (namedSkippable p || negb (IsDeprecated p))
  | OptionalStaticType u => onlyPrimitiveData IsDeprecated u
  | VariableSizedStaticType u => onlyPrimitiveData IsDeprecated u
  | ConstantSizedStaticType u _ => onlyPrimitiveData IsDeprecated u
  | DictionaryStaticType k v =>
      onlyPrimitiveData IsDeprecated k && onlyPrimitiveData IsDeprecated v
  | _ => false
  end.

(** The migration [m] with another reporter, or none. *)
Definition withReporter
  (m : CapabilityValueMigration) (reporter : option CapabilityMigrationReporter)
  : CapabilityValueMigration :=
  {| PrivatePublicCapabilityMapping := PrivatePublicCapabilityMapping m;
     StorageCapabilityMapping := StorageCapabilityMapping m;
     StorageCapabilityWithoutTypeMapping := StorageCapabilityWithoutTypeMapping m;
     Reporter := reporter |}.

(** The table that the migration of [c] consults is the same in [m]
    and [m']: the private/public table for a private or public path,
    the typed storage table for a storage path with a borrow type, the
    untyped storage table for a storage path without. *)
Definition sameSelectedTable
  (m m' : CapabilityValueMigration) (c : PathCapabilityValue) : Prop :=
  match Domain (Path c) with
  | PathDomainPrivate | PathDomainPublic =>
      PrivatePublicCapabilityMapping m = PrivatePublicCapabilityMapping m'
  | PathDomainStorage =>
      match BorrowType c with
      | Some _ => StorageCapabilityMapping m = StorageCapabilityMapping m'
      | None =>
          StorageCapabilityWithoutTypeMapping m = StorageCapabilityWithoutTypeMapping m'
      end
  | PathDomainUnknown => True
  end.

(** The account address that a reporter call carries. *)
Definition accountAddressOf (call : ReporterCall) : Address :=
  match call with
  | MigratedPathCapability accountAddress _ _ _ => accountAddress
  | MissingCapabilityID accountAddress _ => accountAddress
  | MissingBorrowType accountAddress _ => accountAddress
  end.

(** The report that goes with a result of migrating [c]: a replacement
    goes with [MigratedPathCapability] and its id and borrow type, no
    replacement with [MissingCapabilityID], a panic with nothing. *)
Definition reportFor
  (storageKey : StorageKey) (c : PathCapabilityValue)
  (r : outcome (option Value * option error)) : list ReporterCall :=
  match r with
  | Returned (Some (IDCapability replacement), _) =>
      match asReferenceStaticType (IDCapabilityValue_BorrowType replacement) with
      | Some borrowType =>
          [MigratedPathCapability (StorageKey_Address storageKey)
             (PathCapabilityValue_AddressPath c) borrowType (ID replacement)]
      | None => []
      end
  | Returned (None, _) =>
      [MissingCapabilityID (StorageKey_Address storageKey)
         (PathCapabilityValue_AddressPath c)]
  | _ => []
  end.

Section Words.

Variable StaticType_ID : StaticType -> TypeID.

(** "The mapping table selected by the path's domain" and its entry
    "for the capability's address-path (and, for typed
    storage-domain capabilities, its borrow type id)".  The outer
    [None]: the domain selects no table.  The inner [None]: the
    table has no entry.  An entry is the mapped id and, in the two
    tables that record one, the controller's borrow type. *)
Definition selectedEntry (m : CapabilityValueMigration) (c : PathCapabilityValue)
  : option (option (UInt64Value * option ReferenceStaticType)) :=
  let addressPath := PathCapabilityValue_AddressPath c in
  match Domain (Path c) with
  | PathDomainPrivate | PathDomainPublic =>
      Some (prod_map id Some <$> PrivatePublicCapabilityMapping m !! addressPath)
  | PathDomainStorage =>
      match BorrowType c with
      | Some borrowType =>
          Some ((fun capabilityID => (capabilityID, None))
                  <$> StorageCapabilityMapping m !! (addressPath, StaticType_ID borrowType))
      | None =>
          Some (prod_map id Some <$> StorageCapabilityWithoutTypeMapping m !! addressPath)
      end
  | PathDomainUnknown => None
  end.

(** "The old capability's own borrow type when present and
    otherwise the controller's." *)
Definition resolvedBorrowType
  (c : PathCapabilityValue) (controller : option ReferenceStaticType)
  : option StaticType :=
  match BorrowType c with
  | Some borrowType => Some borrowType
  | None => ReferenceStaticType_asStaticType <$> controller
  end.

(** What reaches the reporter of [m] when the migration reports
    [cs]: the calls themselves, and nothing without a reporter. *)
Definition reported (m : CapabilityValueMigration) (cs : list ReporterCall)
  : list ReporterCall :=
  match Reporter m with
  | Some _ => cs
  | None => []
  end.

(** What the code after the switch does with the mapped id and the
    resolved borrow type. *)
Definition afterSwitchOutcome
  (m : CapabilityValueMigration) (c : PathCapabilityValue) (storageKey : StorageKey)
  (capabilityID : UInt64Value) (borrowType : option StaticType)
  : Eff (option Value * option error) :=
  match asReferenceStaticType borrowType with
  | None => ([], Panicked (UnexpectedError "unexpected non-reference borrow type: %T"))
  | Some newBorrowType =>
      (reported m [MigratedPathCapability (StorageKey_Address storageKey)
                     (PathCapabilityValue_AddressPath c) newBorrowType capabilityID],
       Returned
         (Some (IDCapability
                  (NewUnmeteredCapabilityValue capabilityID (address c) borrowType)),
          None))
  end.

(** The stored value after one run of the migration on it: the
    replacement if one is returned, the value itself if nil is
    returned. *)
Definition migrated
  (m : CapabilityValueMigration) (storageKey : StorageKey) (storageMapKey : string)
  (value : Value) : outcome Value :=
  match result (Migrate StaticType_ID m storageKey storageMapKey value) with
  | Returned (Some replacement, _) => Returned replacement
  | Returned (None, _) => Returned value
  | Panicked e => Panicked e
  end.

(** The four ways in which the migration of a path capability ends. *)
Inductive MigrationCase
  (m : CapabilityValueMigration) (c : PathCapabilityValue) (storageKey : StorageKey)
  : Eff (option Value * option error) -> Prop :=
| case_unknown_domain :
    selectedEntry m c = None ->
    MigrationCase m c storageKey
      ([], Panicked (UnexpectedError "unexpected path domain: %s"))
| case_missing :
    selectedEntry m c = Some None ->
    MigrationCase m c storageKey
      (reported m [MissingCapabilityID (StorageKey_Address storageKey)
                     (PathCapabilityValue_AddressPath c)],
       Returned (None, None))
| case_non_reference capabilityID controller :
    selectedEntry m c = Some (Some (capabilityID, controller)) ->
    asReferenceStaticType (resolvedBorrowType c controller) = None ->
    MigrationCase m c storageKey
      ([], Panicked (UnexpectedError "unexpected non-reference borrow type: %T"))
| case_migrated capabilityID controller newBorrowType :
    selectedEntry m c = Some (Some (capabilityID, controller)) ->
    asReferenceStaticType (resolvedBorrowType c controller) = Some newBorrowType ->
    MigrationCase m c storageKey
      (reported m [MigratedPathCapability (StorageKey_Address storageKey)
                     (PathCapabilityValue_AddressPath c) newBorrowType capabilityID],
       Returned
         (Some (IDCapability
                  (NewUnmeteredCapabilityValue capabilityID (address c)
                     (Some (ReferenceStaticType_asStaticType newBorrowType)))),
          None)).

End Words.

End capcons.

(** ** Conformance checking

    The conformance check of the semantic checker, after its
    specification: "For each composite [C: I1, ..., In], verify that
    for every member of every [Ii] either (a) [C] declares a member
    with identical name, identical argument labels (parameter names
    may differ), parameter types equal (invariant), and return type a
    subtype, or (b) the interface supplies a default.  Events are
    exempt from conformance.  Nested type declarations of interfaces
    impose type requirements: [C] must declare a nested type with the
    same name and kind."  The tests of the checker follow
    [runtime/ast/comments.go]. *)

Module checker.
Import sema.

Inductive CompositeKind :=
| CompositeKindStructure
| CompositeKindResource
| CompositeKindContract
| CompositeKindEvent
| CompositeKindEnum
| CompositeKindAttachment.

#[global] Instance CompositeKind_eq_dec : EqDecision CompositeKind.
Proof. solve_decision. Defined.

(** [fun foo(x y: String)] has a parameter with label [x] and name
    [y]; in [fun foo(x: Int)] the label is absent and the name [x]
    serves as the argument label. *)
Record Parameter_ := {
  Label : string;
  Identifier : string;
  TypeAnnotation : Type_;
}.

(** The label of a parameter that is written without one. *)
Definition noLabel : string := EmptyString.

Definition EffectiveArgumentLabel (p : Parameter_) : string :=
  if decide (Label p = noLabel) then Identifier p else Label p.

(** A function member; in an interface [HasDefault] tells whether the
    interface supplies an implementation. *)
Record FunctionDeclaration := {
  FunctionName : string;
  Parameters : list Parameter_;
  ReturnType : Type_;
  HasDefault : bool;
}.

(** A composite or interface declaration: an initializer (for an
    event, its parameters), function members, the interfaces it
    conforms to, and nested declarations. *)
Inductive Declaration := Build_Declaration {
  DeclarationName : string;
  Kind : CompositeKind;
  Initializer : option (list Parameter_);
  Functions : list FunctionDeclaration;
  Conformances : list Declaration;
  Nested : list Declaration;
}.

(** Structured checker errors. *)
Inductive CheckerError :=
| ConformanceError
    (composite interface : string)
    (initializerMismatch : bool)
    (missingMembers : list string)
    (missingNestedTypes : list string)
| RedeclarationError (name : string)
| InvalidNestedDeclarationError (name : string).

Definition isConformanceError (e : CheckerError) : bool :=
  match e with
  | ConformanceError _ _ _ _ _ => true
  | _ => false
  end.

Section Check.

(** Subtyping of the type model. *)
Variable IsSubType : Type_ -> Type_ -> bool.

Definition argumentLabels (ps : list Parameter_) : list string :=
  map EffectiveArgumentLabel ps.

Definition parameterTypes (ps : list Parameter_) : list Type_ :=
  map TypeAnnotation ps.

(** Identical argument labels and equal parameter types. *)
Definition parametersMatch (c i : list Parameter_) : bool :=
  bool_decide (argumentLabels c = argumentLabels i)
  && bool_decide (parameterTypes c = parameterTypes i).

(** Modelled from the spec: the member check of the conformance
    checker (the checker is missing).  Clause (a), for one member [c]
    of the composite: identical name, identical argument labels, equal
    parameter types, and a return type that is a subtype. *)
Definition memberSatisfied (c i : FunctionDeclaration) : bool :=
  bool_decide (FunctionName c = FunctionName i)
  && parametersMatch (Parameters c) (Parameters i)
  && IsSubType (ReturnType c) (ReturnType i).

(** Modelled from the spec: the conformance of a composite to one
    member of an interface (the checker is missing).  Clause (a) for
    some member of the composite, or clause (b): the interface supplies
    a default. *)
Definition memberConforms (C : Declaration) (i : FunctionDeclaration) : bool :=
  existsb (fun c => memberSatisfied c i) (Functions C) || HasDefault i.

(** Modelled from the spec: the initializer check (the checker is
    missing).  An initializer that the interface declares must be
    matched in argument labels and parameter types. *)
Definition initializerConforms (C I : Declaration) : bool :=
  match Initializer I with
  | None => true
  | Some ips =>
      match Initializer C with
      | Some cps => parametersMatch cps ips
      | None => false
      end
  end.

(** Modelled from the spec: which nested declarations of an interface
    are type requirements (the checker is missing).  Events are exempt
    from conformance: a nested event is no type requirement. *)
Definition isTypeRequirement (d : Declaration) : bool :=
  negb (bool_decide (Kind d = CompositeKindEvent)).

(** The nested type of [C] with the name and kind of [r]. *)
Definition findNested (C r : Declaration) : option Declaration :=
  List.find
    (fun n =>
       bool_decide (DeclarationName n = DeclarationName r)
       && bool_decide (Kind n = Kind r))
    (Nested C).

Definition missingMembers (I C : Declaration) : list string :=
  map FunctionName
    (List.filter (fun i => negb (memberConforms C i)) (Functions I)).

Definition missingNestedTypes (I C : Declaration) : list string :=
  map DeclarationName
    (List.filter
       (fun r =>
          isTypeRequirement r
          && match findNested C r with Some _ => false | None => true end)
       (Nested I)).

(** Modelled from the spec: the conformance check of a composite [C]
    against an interface [I] (the checker is missing).  A composite
    that fails the interface gets one [Conformance] error, which lists
    the members and nested types it lacks; then the nested types of
    [C] are checked against the type requirements of [I]. *)
Fixpoint conformanceErrors (I C : Declaration) {struct I} : list CheckerError :=
  (if initializerConforms C I
      && bool_decide (missingMembers I C = [])
      && bool_decide (missingNestedTypes I C = [])
   then []
   else [ConformanceError
           (DeclarationName C) (DeclarationName I)
           (negb (initializerConforms C I))
           (missingMembers I C)
           (missingNestedTypes I C)])
  ++ (fix requirements (rs : list Declaration) : list CheckerError :=
        match rs with
        | [] => []
        | r :: rs =>
            (if isTypeRequirement r
             then match findNested C r with
                  | Some n => conformanceErrors r n
                  | None => []
                  end
             else [])
            ++ requirements rs
        end) (Nested I).

(** The second part of [conformanceErrors], over the nested
    declarations [rs] of the interface. *)
Definition requirementErrors (C : Declaration) (rs : list Declaration)
  : list CheckerError :=
  flat_map
    (fun r =>
       if isTypeRequirement r
       then match findNested C r with
            | Some n => conformanceErrors r n
            | None => []
            end
       else [])
    rs.

(** Modelled from the spec: checking a declaration for conformance
    (the checker is missing): each of its conformances, then its
    nested declarations. *)
Fixpoint checkDeclaration (D : Declaration) : list CheckerError :=
  flat_map (fun I => conformanceErrors I D) (Conformances D)
  ++ (fix nested (ds : list Declaration) : list CheckerError :=
        match ds with
        | [] => []
        | d :: ds => checkDeclaration d ++ nested ds
        end) (Nested D).

Definition checkProgram (declarations : list Declaration) : list CheckerError :=
  flat_map checkDeclaration declarations.

(** [a] is a strict subtype of [b]. *)
Definition strictSubType (a b : Type_) : Prop :=
  IsSubType a b = true /\ a <> b.

End Check.

(** Parameter lists with the same explicit argument labels and the
    same types, position by position; the parameter names are free. *)
Definition sameLabelsAndTypes (c i : list Parameter_) : Prop :=
  Forall2
    (fun pc pi =>
       Label pc = Label pi /\ Label pi <> noLabel /\ TypeAnnotation pc = TypeAnnotation pi)
    c i.

(** A declaration without the events nested in it. *)
Definition withoutEvents (d : Declaration) : Declaration :=
  {| DeclarationName := DeclarationName d;
     Kind := Kind d;
     Initializer := Initializer d;
     Functions := Functions d;
     Conformances := Conformances d;
     Nested := List.filter isTypeRequirement (Nested d) |}.

End checker.

(** ** Concrete inputs *)

Module examples.
Import errors common interpreter capcons.

(** An encoder stream whose writes never fail, and stand-ins for the
    encodings of addresses, paths and static types. *)
Definition bufferRawBytes (b : list byte) (e : Encoder) : Encoder * option error :=
  (e ++ b, None).

Definition bufferNil (e : Encoder) : Encoder * option error :=
  (e ++ [cborNil], None).

Definition addressBytes (a : AddressValue) : list byte := [x41; x01].
Definition pathBytes (p : PathValue) : list byte := [x61; x78].
Definition staticTypeBytes (t : StaticType) : list byte := [x61; x54].

(** A stand-in for the tag number. *)
Definition exampleTag : byte := xe6.

(** [&Foo], the account [0x1] and the path [/public/x]. *)
Definition Foo : StaticType := CompositeStaticType "Foo".

Definition refFoo : ReferenceStaticType :=
  {| Authorization_ := Unauthorized; ReferencedType_ := Foo |}.

Definition publicX : PathValue := {| Domain := PathDomainPublic; Identifier := "x" |}.

Definition account1 : StorageKey := {| Key := "storage"; StorageKey_Address := 1%N |}.

Definition typedCapability : PathCapabilityValue :=
  NewUnmeteredPathCapabilityValue
    (Some (ReferenceStaticType_asStaticType refFoo)) 1%N publicX.

(** An interpreter whose storage holds a value at [/storage/x] of
    account [0x1] and that resolves references to composite types. *)
Definition exampleInterpreter : Interpreter :=
  {| Interpreter_Storage := {[ (1%N, "storage", "x") := StringValue "stored" ]};
     MustConvertStaticToSemaType := fun t =>
       match t with
       | ReferenceStaticTypeOf _ (CompositeStaticType i) =>
           Returned (sema.ReferenceTypeOf sema.Unauthorized (sema.NominalType i))
       | CompositeStaticType i => Returned (sema.NominalType i)
       | _ => Panicked (UnexpectedError "cannot convert static type")
       end |}.

Definition exampleInvocation : Invocation :=
  {| Invocation_Interpreter := exampleInterpreter;
     Invocation_Self := None;
     Arguments := [];
     TypeParameterTypes := [] |}.

(** A capability whose borrow type is the composite type [Foo] itself,
    not a reference to it. *)
Definition nonReferenceCapability : PathCapabilityValue :=
  NewUnmeteredPathCapabilityValue (Some Foo) 1%N publicX.

Definition untypedCapability : PathCapabilityValue :=
  NewUnmeteredPathCapabilityValue None 1%N publicX.

(** A stand-in for [StaticType.ID]. *)
Definition exampleID (t : StaticType) : TypeID :=
  match t with
  | CompositeStaticType i => i
  | ReferenceStaticTypeOf _ (CompositeStaticType i) => "&" +:+ i
  | _ => "?"
  end.

(** The mapping [/public/x -> (id = 42, &Foo)] of account [0x1]. *)
Definition exampleMapping : gmap AddressPath (UInt64Value * ReferenceStaticType) :=
  {[ PathCapabilityValue_AddressPath typedCapability := (42%N, refFoo) ]}.

Definition exampleMigration : CapabilityValueMigration :=
  {| PrivatePublicCapabilityMapping := exampleMapping;
     StorageCapabilityMapping := ∅;
     StorageCapabilityWithoutTypeMapping := ∅;
     Reporter := Some (AReporter "test") |}.

(** No entry in any mapping. *)
Definition emptyMigration : CapabilityValueMigration :=
  {| PrivatePublicCapabilityMapping := ∅;
     StorageCapabilityMapping := ∅;
     StorageCapabilityWithoutTypeMapping := ∅;
     Reporter := Some (AReporter "test") |}.

(** The id capability of seed scenario 5. *)
Definition idCapability42 : IDCapabilityValue :=
  NewUnmeteredCapabilityValue 42%N 1%N (Some (ReferenceStaticType_asStaticType refFoo)).

(** Stand-ins for the primitive types beyond the named ones: [Int]
    with code 36, [StoragePath] with code 77, the deprecated
    [AuthAccount] with code 90. *)
Definition exampleIsDeprecated (p : PrimitiveStaticType) : bool :=
  bool_decide (p = PrimitiveStaticTypeOther 90).

Definition exampleSemaType (p : PrimitiveStaticType) : sema.Type_ :=
  match p with
  | PrimitiveStaticTypeOther 36 => sema.NominalType "Int"
  | PrimitiveStaticTypeOther 77 => sema.NominalType "StoragePath"
  | PrimitiveStaticTypeOther 90 => sema.NominalType "AuthAccount"
  | PrimitiveStaticTypeCapability => sema.NominalType "Capability"
  | _ => sema.NominalType "AnyStruct"
  end.

Definition exampleIsSubType (a b : sema.Type_) : bool :=
  bool_decide (a = b)
  || bool_decide (a = sema.NominalType "Int" /\ b = sema.NumberType)
  || bool_decide (a = sema.NominalType "StoragePath" /\ b = sema.PathType).

Definition exampleCanSkip : StaticType -> bool :=
  CanSkipCapabilityValueMigration exampleIsDeprecated exampleSemaType exampleIsSubType.

(** The mappings of [exampleMigration] with another typed storage
    table. *)
Definition otherStorageMigration : CapabilityValueMigration :=
  {| PrivatePublicCapabilityMapping := exampleMapping;
     StorageCapabilityMapping :=
       {[ (PathCapabilityValue_AddressPath typedCapability, "&Foo") := 7%N ]};
     StorageCapabilityWithoutTypeMapping := ∅;
     Reporter := Some (AReporter "test") |}.

(** A capability whose borrow type [exampleInterpreter] cannot
    convert. *)
Definition unconvertibleCapability : PathCapabilityValue :=
  NewUnmeteredPathCapabilityValue
    (Some (PrimitiveStaticTypeOf PrimitiveStaticTypeBool)) 1%N publicX.

(** Stand-ins for the renderings of addresses, paths and static
    types. *)
Definition renderAddress (a : AddressValue) (seen : unit) : string := "0x1".
Definition renderPath (p : PathValue) (seen : unit) : string := "/public/x".
Definition renderStaticType (t : StaticType) : string := "&Foo".

(** A self-delimiting code of positive numbers: one byte per binary
    digit, then a zero byte. *)
Fixpoint positiveBytes (p : positive) : list byte :=
  match p with
  | xH => [x00]
  | xO q => x01 :: positiveBytes q
  | xI q => x02 :: positiveBytes q
  end.

Definition primitiveCode (p : PrimitiveStaticType) : N :=
  match p with
  | PrimitiveStaticTypeCapability => 0
  | PrimitiveStaticTypeBool => 1
  | PrimitiveStaticTypeVoid => 2
  | PrimitiveStaticTypeAddress => 3
  | PrimitiveStaticTypeMetaType => 4
  | PrimitiveStaticTypeBlock => 5
  | PrimitiveStaticTypeString => 6
  | PrimitiveStaticTypeCharacter => 7
  | PrimitiveStaticTypeOther code => 8 + code
  end.

Definition authorizationTree (a : Authorization) : gen_tree (N + Z + list string) :=
  match a with
  | Unauthorized => GenNode 0 []
  | EntitlementSetAuthorization entitlements => GenNode 1 [GenLeaf (inr entitlements)]
  | EntitlementMapAuthorization typeID => GenNode 2 [GenLeaf (inr [typeID])]
  end.

(** A static type as a tree of numbers and strings. *)
Fixpoint staticTypeTree (t : StaticType) : gen_tree (N + Z + list string) :=
  match t with
  | PrimitiveStaticTypeOf p => GenNode 0 [GenLeaf (inl (inl (primitiveCode p)))]
  | OptionalStaticType u => GenNode 1 [staticTypeTree u]
  | DictionaryStaticType k v => GenNode 2 [staticTypeTree k; staticTypeTree v]
  | VariableSizedStaticType u => GenNode 3 [staticTypeTree u]
  | ConstantSizedStaticType u n => GenNode 4 [GenLeaf (inl (inr n)); staticTypeTree u]
  | CapabilityStaticType None => GenNode 5 []
  | CapabilityStaticType (Some u) => GenNode 5 [staticTypeTree u]
  | ReferenceStaticTypeOf a u => GenNode 6 [authorizationTree a; staticTypeTree u]
  | CompositeStaticType i => GenNode 7 [GenLeaf (inr [i])]
  | InterfaceStaticType i => GenNode 8 [GenLeaf (inr [i])]
  | IntersectionStaticType ids => GenNode 9 [GenLeaf (inr ids)]
  end.

Definition selfDelimitingAddress (a : AddressValue) : list byte :=
  positiveBytes (encode a).

Definition selfDelimitingPath (p : PathValue) : list byte :=
  positiveBytes (encode p).

Definition selfDelimitingStaticType (t : StaticType) : list byte :=
  xd8 :: positiveBytes (encode (staticTypeTree t)).

End examples.

(** ** The programs of the conformance tests *)

Module checker_examples.
Import sema checker.

Definition Int : Type_ := NominalType "Int".
Definition String_ : Type_ := NominalType "String".
Definition Void : Type_ := NominalType "Void".

(** [resource interface RI {}] and [resource R: RI {}]: the types [@R]
    and [@{RI}]. *)
Definition R : Type_ := NominalType "R".
Definition RI : Type_ := IntersectionType ["RI"].

(** [struct interface I {}] and [struct T: I {}]. *)
Definition T : Type_ := NominalType "T".
Definition I : Type_ := IntersectionType ["I"].

Definition XBar : Type_ := NominalType "X.Bar".
Definition YBar : Type_ := NominalType "Y.Bar".

(** Subtyping among these types: reflexive, [R <: {RI}], [T <: {I}]. *)
Definition IsSubType (a b : Type_) : bool :=
  bool_decide (a = b)
  || bool_decide (a = R /\ b = RI)
  || bool_decide (a = T /\ b = I).

Definition parameter (label name : string) (ty : Type_) : Parameter_ :=
  {| Label := label; Identifier := name; TypeAnnotation := ty |}.

(** A function without a default implementation in the interface. *)
Definition function (name : string) (parameters : list Parameter_) (ret : Type_)
  : FunctionDeclaration :=
  {| FunctionName := name; Parameters := parameters; ReturnType := ret;
     HasDefault := false |}.

Definition declaration
  (kind : CompositeKind) (name : string) (conformances : list Declaration)
  (functions : list FunctionDeclaration) (nested : list Declaration) : Declaration :=
  {| DeclarationName := name; Kind := kind; Initializer := None;
     Functions := functions; Conformances := conformances; Nested := nested |}.

(** [event name(parameters)] *)
Definition event (name : string) (parameters : list Parameter_) : Declaration :=
  {| DeclarationName := name; Kind := CompositeKindEvent;
     Initializer := Some parameters;
     Functions := []; Conformances := []; Nested := [] |}.

(** [struct name { init(parameters) }] *)
Definition structWithInitializer (name : string) (parameters : list Parameter_)
  : Declaration :=
  {| DeclarationName := name; Kind := CompositeKindStructure;
     Initializer := Some parameters;
     Functions := []; Conformances := []; Nested := [] |}.

(** [TestCheckTypeRequirementConformance]:
    [contract interface CI { struct S { interfaceCode } }] and
    [contract C: CI { struct S { conformanceCode } }]. *)
Definition typeRequirement (interfaceCode conformanceCode : list FunctionDeclaration)
  : Declaration :=
  declaration CompositeKindContract "C"
    [declaration CompositeKindContract "CI" [] []
       [declaration CompositeKindStructure "S" [] interfaceCode []]]
    []
    [declaration CompositeKindStructure "S" [] conformanceCode []].

(** [TestCheckConformanceWithFunctionSubtype]:
    [struct interface SI { interfaceFunction }] and
    [struct S: SI { conformanceFunction }]. *)
Definition SI (interfaceFunction : FunctionDeclaration) : Declaration :=
  declaration CompositeKindStructure "SI" [] [interfaceFunction] [].

Definition S (interfaceFunction conformanceFunction : FunctionDeclaration) : Declaration :=
  declaration CompositeKindStructure "S" [SI interfaceFunction] [conformanceFunction] [].

(** [contract interface CI { event name(parameters) }] and a contract
    [C] that conforms to an interface and declares
    [event name(parameters)]. *)
Definition contractInterfaceWithEvent (name : string) (parameters : list Parameter_)
  : Declaration :=
  declaration CompositeKindContract "CI" [] [] [event name parameters].

Definition contractWithEvent
  (interface : Declaration) (name : string) (parameters : list Parameter_)
  : Declaration :=
  declaration CompositeKindContract "C" [interface] [] [event name parameters].

(** [TestCheckEventNonTypeRequirementConformance]:
    [contract interface CI { event E(a: Int) }] and
    [contract C: CI { event E(b: String) }]. *)
Definition eventCI : Declaration :=
  contractInterfaceWithEvent "E" [parameter noLabel "a" Int].

Definition eventC : Declaration :=
  contractWithEvent eventCI "E" [parameter noLabel "b" String_].

(** The same two contracts with a struct in place of the event. *)
Definition structCI : Declaration :=
  declaration CompositeKindContract "CI" [] []
    [structWithInitializer "E" [parameter noLabel "a" Int]].

Definition structC : Declaration :=
  declaration CompositeKindContract "C" [structCI] []
    [structWithInitializer "E" [parameter noLabel "b" String_]].

End checker_examples.

(** * Properties *)

(** ** Comments *)

Section CommentProperties.
Import ast.

Lemma HasPrefix_app (s prefix : list byte) :
  bytes.HasPrefix s prefix = true <-> exists rest, s = prefix ++ rest.
Proof.
  unfold bytes.HasPrefix, bytes.Equal.
  rewrite andb_true_iff, bool_decide_eq_true.
  split.
  - intros [_ Htake]. exists (drop (length prefix) s).
    rewrite <- Htake at 1. symmetry. apply take_drop.
  - intros [rest ->]. split.
    + apply Nat.leb_le. rewrite length_app. lia.
    + by rewrite take_app_length.
Qed.

Lemma Multiline_starts_with (c : Comment) :
  Multiline c = true <-> starts_with c blockCommentStringPrefix.
Proof. apply HasPrefix_app. Qed.

(** C9. For every comment, [Multiline] is true exactly when the
    source starts with "/*", and [Doc] is true exactly when either
    [Multiline] holds and the source starts with "/**", or
    [Multiline] does not hold and the source starts with "///". *)
Theorem Comment_Multiline_Doc (c : Comment) :
  (Multiline c = true <-> starts_with c [x2f; x2a])
  /\ (Doc c = true <->
      (Multiline c = true /\ starts_with c [x2f; x2a; x2a])
      \/ (Multiline c = false /\ starts_with c [x2f; x2f; x2f])).
Proof.
  split; [apply Multiline_starts_with|].
  unfold Doc. destruct (Multiline c) eqn:Hm.
  - rewrite HasPrefix_app. unfold starts_with, blockCommentDocStringPrefix.
    split; [intros H; left; done|].
    intros [[_ H]|[? _]]; done.
  - rewrite HasPrefix_app. unfold starts_with, lineCommentDocStringPrefix.
    split; [intros H; right; done|].
    intros [[? _]|[_ H]]; done.
Qed.

Example Doc_block : Doc (NewComment [x2f; x2a; x2a; x20; x78; x2a; x2f]) = true.
Proof. reflexivity. Qed.

Example Doc_line_plain : Doc (NewComment [x2f; x2f; x20; x78]) = false.
Proof. reflexivity. Qed.

End CommentProperties.

(** ** The deprecated path capability value *)

Section PathCapabilityProperties.
Import errors common interpreter.

(** C1. For every deprecated path capability value, whatever its
    borrow type and whatever the storage of the interpreters involved
    holds: the [borrow] member returns nil and the [check] member
    returns false on every invocation.  This holds of the functions
    built by [newBorrowFunction] and [newCheckFunction] for any borrow
    type, and of what [GetMember] hands out under the names "borrow"
    and "check": that is always such a function, unless the conversion
    of the static borrow type panics before there is a member. *)
Theorem PathCapabilityValue_borrow_nil_check_false
  (v : PathCapabilityValue) (interpreter : Interpreter) :
  (forall borrowType invocation,
      invoke (newBorrowFunction v interpreter borrowType) invocation = Nil)
  /\ (forall borrowType invocation,
         invoke (newCheckFunction v interpreter borrowType) invocation = FalseValue)
  /\ match GetMember v interpreter "borrow" with
     | Returned (Some (MemberFunction f)) =>
         forall invocation, invoke f invocation = Nil
     | Returned _ => False
     | Panicked e => semaBorrowType v interpreter = Panicked e
     end
  /\ match GetMember v interpreter "check" with
     | Returned (Some (MemberFunction f)) =>
         forall invocation, invoke f invocation = FalseValue
     | Returned _ => False
     | Panicked e => semaBorrowType v interpreter = Panicked e
     end.
Proof.
  repeat split; try reflexivity.
  - unfold GetMember; simpl.
    destruct (semaBorrowType v interpreter); [intros; reflexivity | reflexivity].
  - unfold GetMember; simpl.
    destruct (semaBorrowType v interpreter); [intros; reflexivity | reflexivity].
Qed.

Example borrow_example :
  match GetMember examples.typedCapability examples.exampleInterpreter "borrow" with
  | Returned (Some (MemberFunction f)) => invoke f examples.exampleInvocation = Nil
  | _ => False
  end.
Proof. vm_compute. reflexivity. Qed.

Example check_example :
  match GetMember examples.typedCapability examples.exampleInterpreter "check" with
  | Returned (Some (MemberFunction f)) => invoke f examples.exampleInvocation = FalseValue
  | _ => False
  end.
Proof. vm_compute. reflexivity. Qed.

(** [GetMember] hands out the two functions whenever the static borrow
    type is absent or converts. *)
Lemma GetMember_borrow_returns
  (v : PathCapabilityValue) (interpreter : Interpreter) borrowType :
  semaBorrowType v interpreter = Returned borrowType ->
  GetMember v interpreter "borrow"
  = Returned (Some (MemberFunction (newBorrowFunction v interpreter borrowType)))
  /\ GetMember v interpreter "check"
     = Returned (Some (MemberFunction (newCheckFunction v interpreter borrowType))).
Proof. intros H. unfold GetMember; simpl. by rewrite H. Qed.

Lemma semaBorrowType_untyped (v : PathCapabilityValue) (interpreter : Interpreter) :
  BorrowType v = None -> semaBorrowType v interpreter = Returned None.
Proof. intros H. unfold semaBorrowType. by rewrite H. Qed.

Lemma PathValue_Equal_eq (p q : PathValue) :
  PathValue_Equal p (Path_ q) = true <-> p = q.
Proof.
  unfold PathValue_Equal.
  rewrite andb_true_iff, !bool_decide_eq_true.
  destruct p, q; simpl. split.
  - intros [-> ->]. reflexivity.
  - intros [= -> ->]. done.
Qed.

Lemma AddressValue_Equal_eq (a b : AddressValue) :
  AddressValue_Equal a (Address_ b) = true <-> a = b.
Proof. unfold AddressValue_Equal. apply bool_decide_eq_true. Qed.

Lemma StaticType_Equal_eq (t : StaticType) (other : option StaticType) :
  StaticType_Equal t other = true <-> other = Some t.
Proof.
  destruct other as [u|]; simpl.
  - rewrite bool_decide_eq_true. split; congruence.
  - split; discriminate.
Qed.

Lemma Equal_true_iff
  (v : PathCapabilityValue) (interpreter : Interpreter) (other : Value) :
  Equal v interpreter other = true <->
  exists o, other = PathCapability o
            /\ borrowTypeMatches v o
            /\ address o = address v
            /\ Path o = Path v.
Proof.
  split.
  - destruct other as [| | | | | | | |o|]; simpl; try discriminate.
    intros H. exists o. split; [reflexivity|].
    unfold borrowTypeMatches.
    destruct (BorrowType v) as [a|] eqn:Hv.
    + destruct (StaticType_Equal a (BorrowType o)) eqn:Hb; simpl in H; [|discriminate].
      apply StaticType_Equal_eq in Hb.
      apply andb_true_iff in H as [Ha Hp].
      apply AddressValue_Equal_eq in Ha. apply PathValue_Equal_eq in Hp.
      split; [right; eauto | done].
    + destruct (BorrowType o) as [b|] eqn:Ho; [discriminate|].
      apply andb_true_iff in H as [Ha Hp].
      apply AddressValue_Equal_eq in Ha. apply PathValue_Equal_eq in Hp.
      split; [left; done | done].
  - intros (o & -> & Hb & Ha & Hp). simpl.
    assert (Hrest : AddressValue_Equal (address o) (Address_ (address v))
                    && PathValue_Equal (Path o) (Path_ (Path v)) = true).
    { apply andb_true_iff. split.
      - by apply AddressValue_Equal_eq.
      - by apply PathValue_Equal_eq. }
    destruct Hb as [[Hv Ho]|(a & b & Hv & Ho & ->)]; rewrite Hv, Ho.
    + exact Hrest.
    + simpl. rewrite bool_decide_true by reflexivity. exact Hrest.
Qed.

(** C10. A path capability value equals another value exactly when
    the other value is also a path capability value whose borrow type
    matches, whose address is equal and whose path is equal; it is
    never equal to an id capability or to a value of any other kind. *)
Theorem PathCapabilityValue_Equal_iff
  (v : PathCapabilityValue) (interpreter : Interpreter) (other : Value) :
  (Equal v interpreter other = true <->
   exists o, other = PathCapability o
             /\ borrowTypeMatches v o
             /\ address o = address v
             /\ Path o = Path v)
  /\ (forall c, Equal v interpreter (IDCapability c) = false)
  /\ match other with
     | PathCapability _ => True
     | _ => Equal v interpreter other = false
     end.
Proof.
  split; [apply Equal_true_iff|].
  split; [reflexivity|].
  destruct other; reflexivity || exact I.
Qed.

(** With structural equality on all three fields, equal path
    capabilities are the same value. *)
Corollary Equal_same
  (v : PathCapabilityValue) (interpreter : Interpreter) (other : Value) :
  Equal v interpreter other = true <-> other = PathCapability v.
Proof.
  rewrite Equal_true_iff. unfold borrowTypeMatches.
  split.
  - intros (o & -> & Hb & Ha & Hp). f_equal.
    destruct v as [vb vp va], o as [ob op oa]; simpl in *. subst.
    destruct Hb as [[-> ->]|(a & b & -> & -> & ->)]; reflexivity.
  - intros ->. exists v. split; [reflexivity|]. split; [|done].
    destruct (BorrowType v) as [a|]; [right; eauto | left; done].
Qed.

End PathCapabilityProperties.

(** ** Encoding of the path capability value *)

Section EncodeProperties.
Import errors common interpreter.

Variable CBORTagPathCapabilityValue : byte.
Variable EncodeRawBytes : list byte -> Encoder -> Encoder * option error.
Variable EncodeNil : Encoder -> Encoder * option error.
Variable AddressValue_Encode : AddressValue -> Encoder -> Encoder * option error.
Variable PathValue_Encode : PathValue -> Encoder -> Encoder * option error.
Variable StaticType_Encode : StaticType -> Encoder -> Encoder * option error.

(** The encodings of the three kinds of field. *)
Variable addressBytes : AddressValue -> list byte.
Variable pathBytes : PathValue -> list byte.
Variable staticTypeBytes : StaticType -> list byte.

(** An encoder that returns no error has appended its encoding to the
    stream. *)
Hypothesis EncodeRawBytes_appends : forall b e e',
  EncodeRawBytes b e = (e', None) -> e' = e ++ b.
Hypothesis EncodeNil_appends : forall e e',
  EncodeNil e = (e', None) -> e' = e ++ [cborNil].
Hypothesis AddressValue_Encode_appends : forall a e e',
  AddressValue_Encode a e = (e', None) -> e' = e ++ addressBytes a.
Hypothesis PathValue_Encode_appends : forall p e e',
  PathValue_Encode p e = (e', None) -> e' = e ++ pathBytes p.
Hypothesis StaticType_Encode_appends : forall t e e',
  StaticType_Encode t e = (e', None) -> e' = e ++ staticTypeBytes t.

Abbreviation encode :=
  (Encode CBORTagPathCapabilityValue EncodeRawBytes EncodeNil
     AddressValue_Encode PathValue_Encode StaticType_Encode).

(** C7. Encoding a path capability value writes the tag head with the
    tag number of path capabilities, then the head of an array of
    [encodedPathCapabilityValueLength] = 3 items, then the address,
    the path and the borrow type in this order, a missing borrow type
    as nil. *)
Theorem Encode_layout (v : PathCapabilityValue) (e e' : Encoder) :
  encode v e = (e', None) ->
  e' = e ++ [cborTagHead1; CBORTagPathCapabilityValue]
         ++ [x83]
         ++ addressBytes (address v)
         ++ pathBytes (Path v)
         ++ borrowTypeBytes staticTypeBytes (BorrowType v)
  /\ cborArrayHead encodedPathCapabilityValueLength = Some x83.
Proof.
  intros H. split; [|reflexivity].
  unfold Encode in H.
  destruct (EncodeRawBytes _ e) as [e1 [err|]] eqn:H1; [discriminate|].
  destruct (AddressValue_Encode _ e1) as [e2 [err|]] eqn:H2; [discriminate|].
  destruct (PathValue_Encode _ e2) as [e3 [err|]] eqn:H3; [discriminate|].
  apply EncodeRawBytes_appends in H1.
  apply AddressValue_Encode_appends in H2.
  apply PathValue_Encode_appends in H3.
  subst e1 e2 e3.
  unfold borrowTypeBytes, cborTagHead1.
  destruct (BorrowType v) as [t|].
  - apply StaticType_Encode_appends in H. rewrite H.
    by rewrite <- !app_assoc.
  - apply EncodeNil_appends in H. rewrite H.
    by rewrite <- !app_assoc.
Qed.

(** The first error stops the encoding: what the failing encoder
    returns is what [Encode] returns. *)
Lemma Encode_head_error (v : PathCapabilityValue) (e e1 : Encoder) (err : error) :
  EncodeRawBytes [xd8; CBORTagPathCapabilityValue; x83] e = (e1, Some err) ->
  encode v e = (e1, Some err).
Proof. intros H. unfold Encode. by rewrite H. Qed.

Lemma Encode_address_error (v : PathCapabilityValue) (e e1 e2 : Encoder) (err : error) :
  EncodeRawBytes [xd8; CBORTagPathCapabilityValue; x83] e = (e1, None) ->
  AddressValue_Encode (address v) e1 = (e2, Some err) ->
  encode v e = (e2, Some err).
Proof. intros H1 H2. unfold Encode. by rewrite H1, H2. Qed.

(** When no encoder reports an error, neither does [Encode]. *)
Lemma Encode_succeeds (v : PathCapabilityValue) (e : Encoder) :
  (forall b e, (EncodeRawBytes b e).2 = None) ->
  (forall e, (EncodeNil e).2 = None) ->
  (forall a e, (AddressValue_Encode a e).2 = None) ->
  (forall p e, (PathValue_Encode p e).2 = None) ->
  (forall t e, (StaticType_Encode t e).2 = None) ->
  (encode v e).2 = None.
Proof.
  intros Hraw Hnil Haddr Hpath Htype. unfold Encode.
  destruct (EncodeRawBytes _ e) as [e1 err1] eqn:H1.
  pose proof (Hraw [xd8; CBORTagPathCapabilityValue; x83] e) as E1.
  rewrite H1 in E1; simpl in E1; subst err1.
  destruct (AddressValue_Encode _ e1) as [e2 err2] eqn:H2.
  pose proof (Haddr (address v) e1) as E2.
  rewrite H2 in E2; simpl in E2; subst err2.
  destruct (PathValue_Encode _ e2) as [e3 err3] eqn:H3.
  pose proof (Hpath (Path v) e2) as E3.
  rewrite H3 in E3; simpl in E3; subst err3.
  destruct (BorrowType v); [apply Htype | apply Hnil].
Qed.

End EncodeProperties.

(** On a stream whose writes succeed, the capability
    [Capability<&Foo>(address: 0x1, path: /public/x)] is encoded as the
    theorem says. *)
Lemma Encode_layout_witness :
  [xd8; xe6; x83; x41; x01; x61; x78; x61; x54]
  = [] ++ [interpreter.cborTagHead1; examples.exampleTag]
       ++ [x83]
       ++ examples.addressBytes (interpreter.address examples.typedCapability)
       ++ examples.pathBytes (interpreter.Path examples.typedCapability)
       ++ interpreter.borrowTypeBytes examples.staticTypeBytes
            (interpreter.BorrowType examples.typedCapability)
  /\ interpreter.cborArrayHead interpreter.encodedPathCapabilityValueLength = Some x83.
Proof.
  apply
    (Encode_layout examples.exampleTag examples.bufferRawBytes examples.bufferNil
       (fun a e => (e ++ examples.addressBytes a, None))
       (fun p e => (e ++ examples.pathBytes p, None))
       (fun t e => (e ++ examples.staticTypeBytes t, None))
       examples.addressBytes examples.pathBytes examples.staticTypeBytes
       ltac:(by intros ??? [= <-]) ltac:(by intros ?? [= <-])
       ltac:(by intros ??? [= <-]) ltac:(by intros ??? [= <-])
       ltac:(by intros ??? [= <-])
       examples.typedCapability []).
  reflexivity.
Defined.

(** ** The skip predicate of the capability migration *)

Section CanSkipProperties.
Import errors common interpreter capcons.

Variable IsDeprecated : PrimitiveStaticType -> bool.
Variable SemaType : PrimitiveStaticType -> sema.Type_.
Variable IsSubType : sema.Type_ -> sema.Type_ -> bool.

Abbreviation canSkip := (CanSkipCapabilityValueMigration IsDeprecated SemaType IsSubType).

(** A type that can be skipped contains no capability type. *)
Lemma CanSkip_sound (t : StaticType) :
  canSkip t = true -> containsCapability t = false.
Proof.
  induction t as [p|t IH|k IHk v IHv|t IH|t IH n|bt|a t IH|i|i|ids]; simpl;
    try discriminate.
  - destruct p; simpl; try discriminate; reflexivity.
  - exact IH.
  - intros [Hk Hv]%andb_true_iff. by rewrite IHk, IHv.
  - exact IH.
  - exact IH.
Qed.

(** A number or path type that is not deprecated can be skipped. *)
Lemma CanSkip_number_or_path (p : PrimitiveStaticType) :
  p <> PrimitiveStaticTypeCapability ->
  IsDeprecated p = false ->
  IsSubType (SemaType p) sema.NumberType = true
  \/ IsSubType (SemaType p) sema.PathType = true ->
  canSkip (PrimitiveStaticTypeOf p) = true.
Proof.
  intros Hp Hd Hs. destruct p; simpl; try reflexivity; [done|].
  rewrite Hd; simpl.
  destruct Hs as [->| ->]; [reflexivity|].
  by rewrite orb_true_r.
Qed.

(** C6. [CanSkipCapabilityValueMigration] returns true only for types
    that contain no capability type.  It returns false for every
    capability static type and for the primitive [Capability] type; on
    dictionaries, arrays and optionals it is the result on the key and
    value types, the element type and the inner type; it returns true
    for [Bool], [Void], [Address], [MetaType], [Block], [String],
    [Character], and for number and path types that are not
    deprecated. *)
Theorem CanSkipCapabilityValueMigration_spec :
  (forall t, canSkip t = true -> containsCapability t = false)
  /\ (forall borrowType, canSkip (CapabilityStaticType borrowType) = false)
  /\ canSkip (PrimitiveStaticTypeOf PrimitiveStaticTypeCapability) = false
  /\ (forall k v,
        canSkip (DictionaryStaticType k v) = canSkip k && canSkip v)
  /\ (forall t, canSkip (VariableSizedStaticType t) = canSkip t)
  /\ (forall t n, canSkip (ConstantSizedStaticType t n) = canSkip t)
  /\ (forall t, canSkip (OptionalStaticType t) = canSkip t)
  /\ (forall p,
        In p [PrimitiveStaticTypeBool; PrimitiveStaticTypeVoid;
              PrimitiveStaticTypeAddress; PrimitiveStaticTypeMetaType;
              PrimitiveStaticTypeBlock; PrimitiveStaticTypeString;
              PrimitiveStaticTypeCharacter] ->
        canSkip (PrimitiveStaticTypeOf p) = true)
  /\ (forall p,
        p <> PrimitiveStaticTypeCapability ->
        IsDeprecated p = false ->
        IsSubType (SemaType p) sema.NumberType = true
        \/ IsSubType (SemaType p) sema.PathType = true ->
        canSkip (PrimitiveStaticTypeOf p) = true).
Proof.
  split; [exact CanSkip_sound|].
  repeat split; try reflexivity.
  - intros p Hin. simpl in Hin.
    repeat (destruct Hin as [<-|Hin]; [reflexivity|]). destruct Hin.
  - exact CanSkip_number_or_path.
Qed.

End CanSkipProperties.

(** ** The capability migration *)

Section MigrationProperties.
Import errors common interpreter capcons.

Variable StaticType_ID : StaticType -> TypeID.

Abbreviation migratePath := (migratePathCapabilityValue StaticType_ID).

Lemma asReferenceStaticType_asStaticType (t : option StaticType) (r : ReferenceStaticType) :
  asReferenceStaticType t = Some r -> Some (ReferenceStaticType_asStaticType r) = t.
Proof.
  destruct t as [[]|]; simpl; try discriminate. by intros [= <-].
Qed.

Lemma asReferenceStaticType_controller (r : ReferenceStaticType) :
  asReferenceStaticType (Some (ReferenceStaticType_asStaticType r)) = Some r.
Proof. by destruct r. Qed.

Lemma report_then_return {A : Type}
  (m : CapabilityValueMigration) (call : ReporterCall) (a : A) :
  (report (Reporter m) call;; mret a) = (reported m [call], Returned a).
Proof. unfold report, reported. by destruct (Reporter m). Qed.

(** The migration of a path capability, by the entry of the selected
    table. *)
Lemma migratePath_by_entry
  (m : CapabilityValueMigration) (c : PathCapabilityValue) (storageKey : StorageKey) :
  migratePath m c storageKey
  = match selectedEntry StaticType_ID m c with
    | None => ([], Panicked (UnexpectedError "unexpected path domain: %s"))
    | Some None =>
        (reported m [MissingCapabilityID (StorageKey_Address storageKey)
                       (PathCapabilityValue_AddressPath c)],
         Returned (None, None))
    | Some (Some (capabilityID, controller)) =>
        afterSwitchOutcome m c storageKey capabilityID (resolvedBorrowType c controller)
    end.
Proof.
  assert (Hafter : forall capabilityID borrowType,
    match asReferenceStaticType borrowType with
    | None => panic (UnexpectedError "unexpected non-reference borrow type: %T")
    | Some newBorrowType =>
        report (Reporter m)
          (MigratedPathCapability (StorageKey_Address storageKey)
             (PathCapabilityValue_AddressPath c) newBorrowType capabilityID);;
        mret (Some (IDCapability
                      (NewUnmeteredCapabilityValue capabilityID (address c)
                         (Some (ReferenceStaticType_asStaticType newBorrowType)))),
              None)
    end = afterSwitchOutcome m c storageKey capabilityID borrowType).
  { intros capabilityID borrowType. unfold afterSwitchOutcome.
    destruct (asReferenceStaticType borrowType) as [r|] eqn:Hr; [|reflexivity].
    rewrite report_then_return.
    by rewrite (asReferenceStaticType_asStaticType _ _ Hr). }
  unfold migratePathCapabilityValue, selectedEntry, resolvedBorrowType,
    PathCapabilityMapping_Get, PathTypeCapabilityMapping_Get.
  cbv zeta.
  change (AddressPath_Path (PathCapabilityValue_AddressPath c)) with (Path c).
  destruct (Domain (Path c)).
  - reflexivity.
  - destruct (BorrowType c) as [borrowType|] eqn:Hb.
    + destruct (StorageCapabilityMapping m !! _) as [capabilityID|].
      * cbn [fmap option_fmap option_map]. rewrite Hafter. reflexivity.
      * cbn [fmap option_fmap option_map]. apply report_then_return.
    + destruct (StorageCapabilityWithoutTypeMapping m !! _) as [[capabilityID r]|].
      * cbn [fmap option_fmap option_map prod_map fst snd id]. rewrite Hafter.
        reflexivity.
      * cbn [fmap option_fmap option_map]. apply report_then_return.
  - destruct (PrivatePublicCapabilityMapping m !! _) as [[capabilityID r]|].
    + cbn [fmap option_fmap option_map prod_map fst snd id]. rewrite Hafter.
      by destruct (BorrowType c).
    + cbn [fmap option_fmap option_map]. apply report_then_return.
  - destruct (PrivatePublicCapabilityMapping m !! _) as [[capabilityID r]|].
    + cbn [fmap option_fmap option_map prod_map fst snd id]. rewrite Hafter.
      by destruct (BorrowType c).
    + cbn [fmap option_fmap option_map]. apply report_then_return.
Qed.

(** No entry in the selected table: one [MissingCapabilityID] report
    and no replacement. *)
Lemma migratePath_missing
  (m : CapabilityValueMigration) (c : PathCapabilityValue) (storageKey : StorageKey) :
  selectedEntry StaticType_ID m c = Some None ->
  migratePath m c storageKey
  = (reported m [MissingCapabilityID (StorageKey_Address storageKey)
                   (PathCapabilityValue_AddressPath c)],
     Returned (None, None)).
Proof. intros He. by rewrite migratePath_by_entry, He. Qed.

(** An entry and a resolved borrow type that is a reference type: the
    id capability and one [MigratedPathCapability] report. *)
Lemma migratePath_found
  (m : CapabilityValueMigration) (c : PathCapabilityValue) (storageKey : StorageKey)
  (capabilityID : UInt64Value) (controller : option ReferenceStaticType)
  (newBorrowType : ReferenceStaticType) :
  selectedEntry StaticType_ID m c = Some (Some (capabilityID, controller)) ->
  asReferenceStaticType (resolvedBorrowType c controller) = Some newBorrowType ->
  migratePath m c storageKey
  = (reported m [MigratedPathCapability (StorageKey_Address storageKey)
                   (PathCapabilityValue_AddressPath c) newBorrowType capabilityID],
     Returned
       (Some (IDCapability
                (NewUnmeteredCapabilityValue capabilityID (address c)
                   (resolvedBorrowType c controller))),
        None)).
Proof.
  intros He Hr. rewrite migratePath_by_entry, He. unfold afterSwitchOutcome. by rewrite Hr.
Qed.

(** An entry and a resolved borrow type that is no reference type: a
    panic before anything is reported. *)
Lemma migratePath_non_reference
  (m : CapabilityValueMigration) (c : PathCapabilityValue) (storageKey : StorageKey)
  (capabilityID : UInt64Value) (controller : option ReferenceStaticType) :
  selectedEntry StaticType_ID m c = Some (Some (capabilityID, controller)) ->
  asReferenceStaticType (resolvedBorrowType c controller) = None ->
  migratePath m c storageKey
  = ([], Panicked (UnexpectedError "unexpected non-reference borrow type: %T")).
Proof.
  intros He Hr. rewrite migratePath_by_entry, He. unfold afterSwitchOutcome. by rewrite Hr.
Qed.

(** A domain that selects no table: a panic. *)
Lemma migratePath_unknown_domain
  (m : CapabilityValueMigration) (c : PathCapabilityValue) (storageKey : StorageKey) :
  selectedEntry StaticType_ID m c = None ->
  migratePath m c storageKey
  = ([], Panicked (UnexpectedError "unexpected path domain: %s")).
Proof. intros He. by rewrite migratePath_by_entry, He. Qed.

(** [Migrate] touches nothing but path capability values. *)
Lemma Migrate_other
  (m : CapabilityValueMigration) (storageKey : StorageKey) (storageMapKey : string)
  (value : Value) :
  isPathCapability value = false ->
  Migrate StaticType_ID m storageKey storageMapKey value = ([], Returned (None, None)).
Proof. by destruct value. Qed.

(** A replacement is an id capability value. *)
Lemma Migrate_replacement
  (m : CapabilityValueMigration) (storageKey : StorageKey) (storageMapKey : string)
  (value replacement : Value) (reports : list ReporterCall) (err : option error) :
  Migrate StaticType_ID m storageKey storageMapKey value
  = (reports, Returned (Some replacement, err)) ->
  exists c, replacement = IDCapability c.
Proof.
  destruct value as [| | | | | | | |c|]; try discriminate. simpl.
  destruct (selectedEntry StaticType_ID m c) as [[[capabilityID controller]|]|] eqn:He.
  - destruct (asReferenceStaticType (resolvedBorrowType c controller)) as [r|] eqn:Hr.
    + rewrite (migratePath_found _ _ _ _ _ _ He Hr). intros [= _ <- _]. eauto.
    + rewrite (migratePath_non_reference _ _ _ _ _ He Hr). discriminate.
  - rewrite (migratePath_missing _ _ _ He). discriminate.
  - rewrite (migratePath_unknown_domain _ _ _ He). discriminate.
Qed.

(** C2, as the code has it.  For every path capability value whose
    domain selects a mapping table: if the table has no entry for the
    address-path (and, for typed storage capabilities, the borrow type
    id), the migration makes exactly one [MissingCapabilityID] report
    and returns no replacement; if it has an entry and the resolved
    borrow type (the capability's own when present, otherwise the
    controller's) is a reference static type, the migration returns
    the id capability of the mapped id, the capability's address and
    that borrow type, and makes exactly one [MigratedPathCapability]
    report.  Reports reach the reporter of the migration; there is
    none to make when the migration has no reporter. *)
Theorem migratePathCapabilityValue_by_entry
  (m : CapabilityValueMigration) (c : PathCapabilityValue) (storageKey : StorageKey)
  (entry : option (UInt64Value * option ReferenceStaticType)) :
  selectedEntry StaticType_ID m c = Some entry ->
  match entry with
  | None =>
      migratePath m c storageKey
      = (reported m [MissingCapabilityID (StorageKey_Address storageKey)
                       (PathCapabilityValue_AddressPath c)],
         Returned (None, None))
  | Some (capabilityID, controller) =>
      forall newBorrowType,
        asReferenceStaticType (resolvedBorrowType c controller) = Some newBorrowType ->
        migratePath m c storageKey
        = (reported m [MigratedPathCapability (StorageKey_Address storageKey)
                         (PathCapabilityValue_AddressPath c) newBorrowType capabilityID],
           Returned
             (Some (IDCapability
                      {| IDCapabilityValue_BorrowType := resolvedBorrowType c controller;
                         IDCapabilityValue_Address := address c;
                         ID := capabilityID |}),
              None))
  end.
Proof.
  intros He. destruct entry as [[capabilityID controller]|].
  - intros r Hr. exact (migratePath_found _ _ _ _ _ _ He Hr).
  - exact (migratePath_missing _ _ _ He).
Qed.

(** C5. When the selected table has an entry and the resolved borrow
    type is not a reference static type, the migration panics with an
    unexpected (internal) error; nothing is reported and nothing is
    returned.  That is so of [migratePathCapabilityValue] and of
    [Migrate] on the capability. *)
Theorem migratePathCapabilityValue_non_reference_panics
  (m : CapabilityValueMigration) (c : PathCapabilityValue)
  (storageKey : StorageKey) (storageMapKey : string)
  (capabilityID : UInt64Value) (controller : option ReferenceStaticType) :
  selectedEntry StaticType_ID m c = Some (Some (capabilityID, controller)) ->
  asReferenceStaticType (resolvedBorrowType c controller) = None ->
  migratePath m c storageKey
  = ([], Panicked (UnexpectedError "unexpected non-reference borrow type: %T"))
  /\ Migrate StaticType_ID m storageKey storageMapKey (PathCapability c)
     = ([], Panicked (UnexpectedError "unexpected non-reference borrow type: %T")).
Proof.
  intros He Hr. split; exact (migratePath_non_reference _ _ _ _ _ He Hr).
Qed.

(** C3. [Migrate] returns no replacement, [(nil, nil)], and reports
    nothing for every value that is not a path capability value;
    whatever a run returns as a replacement is such a value, so any
    later run returns [(nil, nil)] for it; and a stored value that one
    run of the migration leaves as [value1] is left as [value1] by a
    second run. *)
Theorem Migrate_idempotent
  (m : CapabilityValueMigration) (storageKey : StorageKey) (storageMapKey : string) :
  (forall value,
      isPathCapability value = false ->
      Migrate StaticType_ID m storageKey storageMapKey value
      = ([], Returned (None, None)))
  /\ (forall value replacement reports err,
         Migrate StaticType_ID m storageKey storageMapKey value
         = (reports, Returned (Some replacement, err)) ->
         forall m' storageKey' storageMapKey',
           Migrate StaticType_ID m' storageKey' storageMapKey' replacement
           = ([], Returned (None, None)))
  /\ (forall value value1,
         migrated StaticType_ID m storageKey storageMapKey value = Returned value1 ->
         migrated StaticType_ID m storageKey storageMapKey value1 = Returned value1).
Proof.
  split; [intros value; apply Migrate_other|].
  split.
  - intros value replacement reports err H m' storageKey' storageMapKey'.
    apply Migrate_replacement in H as [c ->]. reflexivity.
  - intros value value1. unfold migrated.
    destruct (Migrate StaticType_ID m storageKey storageMapKey value)
      as [reports [[[replacement|] err]|e]] eqn:H; simpl; try discriminate.
    + intros [= <-]. apply Migrate_replacement in H as [c ->]. reflexivity.
    + intros [= <-]. by rewrite H.
Qed.

End MigrationProperties.

(** Seed scenario 5: [Capability<&Foo>(address: 0x1, path: /public/x)]
    with the mapping [/public/x -> (42, &Foo)] becomes the id
    capability [(0x1, 42, &Foo)], with one [MigratedPathCapability]
    report.  Seed scenario 6: with no entry in any mapping there is no
    replacement and one [MissingCapabilityID] report. *)
Lemma migratePathCapabilityValue_by_entry_witness :
  capcons.migratePathCapabilityValue examples.exampleID
    examples.exampleMigration examples.typedCapability examples.account1
  = ([capcons.MigratedPathCapability 1%N
        (interpreter.PathCapabilityValue_AddressPath examples.typedCapability)
        examples.refFoo 42%N],
     errors.Returned
       (Some (interpreter.IDCapability
                {| interpreter.IDCapabilityValue_BorrowType :=
                     Some (interpreter.ReferenceStaticType_asStaticType examples.refFoo);
                   interpreter.IDCapabilityValue_Address := 1%N;
                   interpreter.ID := 42%N |}),
        None))
  /\ capcons.migratePathCapabilityValue examples.exampleID
       examples.emptyMigration examples.typedCapability examples.account1
     = ([capcons.MissingCapabilityID 1%N
           (interpreter.PathCapabilityValue_AddressPath examples.typedCapability)],
        errors.Returned (None, None)).
Proof.
  split.
  - apply (migratePathCapabilityValue_by_entry examples.exampleID
             examples.exampleMigration examples.typedCapability examples.account1
             (Some (42%N, Some examples.refFoo))); vm_compute; reflexivity.
  - apply (migratePathCapabilityValue_by_entry examples.exampleID
             examples.emptyMigration examples.typedCapability examples.account1
             None); vm_compute; reflexivity.
Defined.

(** C2 as the specification states it, without the condition on the
    borrow type, fails where an entry exists and the borrow type is
    not a reference type: for
    [Capability<Foo>(address: 0x1, path: /public/x)] the table has the
    entry [(42, &Foo)], and the migration panics; it returns no id
    capability and reports no [MigratedPathCapability]. *)
Lemma migratePathCapabilityValue_entry_but_panic :
  capcons.selectedEntry examples.exampleID
    examples.exampleMigration examples.nonReferenceCapability
  = Some (Some (42%N, Some examples.refFoo))
  /\ capcons.migratePathCapabilityValue examples.exampleID
       examples.exampleMigration examples.nonReferenceCapability examples.account1
     = ([], errors.Panicked
              (errors.UnexpectedError "unexpected non-reference borrow type: %T"))
  /\ ~ (exists replacement reports,
          capcons.migratePathCapabilityValue examples.exampleID
            examples.exampleMigration examples.nonReferenceCapability examples.account1
          = (reports, errors.Returned (Some (interpreter.IDCapability replacement), None))).
Proof.
  split; [vm_compute; reflexivity|].
  split; [vm_compute; reflexivity|].
  intros (replacement & reports & H). vm_compute in H. discriminate.
Qed.

(** The same capability and mapping: the panic, with nothing
    reported. *)
Lemma migratePathCapabilityValue_non_reference_panics_witness :
  capcons.migratePathCapabilityValue examples.exampleID
    examples.exampleMigration examples.nonReferenceCapability examples.account1
  = ([], errors.Panicked
           (errors.UnexpectedError "unexpected non-reference borrow type: %T"))
  /\ capcons.Migrate examples.exampleID examples.exampleMigration examples.account1 "x"
       (interpreter.PathCapability examples.nonReferenceCapability)
     = ([], errors.Panicked
              (errors.UnexpectedError "unexpected non-reference borrow type: %T")).
Proof.
  apply (migratePathCapabilityValue_non_reference_panics examples.exampleID
           examples.exampleMigration examples.nonReferenceCapability
           examples.account1 "x" 42%N (Some examples.refFoo));
    vm_compute; reflexivity.
Defined.

(** After the run of seed scenario 5, the id capability is left alone. *)
Lemma Migrate_idempotent_witness :
  capcons.Migrate examples.exampleID examples.exampleMigration examples.account1 "x"
    (interpreter.UInt64 7%N)
  = ([], errors.Returned (None, None))
  /\ capcons.Migrate examples.exampleID examples.emptyMigration examples.account1 "y"
       (interpreter.IDCapability examples.idCapability42)
     = ([], errors.Returned (None, None))
  /\ capcons.migrated examples.exampleID examples.exampleMigration examples.account1 "x"
       (interpreter.IDCapability examples.idCapability42)
     = errors.Returned (interpreter.IDCapability examples.idCapability42).
Proof.
  pose proof
    (Migrate_idempotent examples.exampleID examples.exampleMigration
       examples.account1 "x") as (Hother & Hreplacement & Htwice).
  split; [apply Hother; reflexivity|].
  split.
  - apply (Hreplacement (interpreter.PathCapability examples.typedCapability)
             (interpreter.IDCapability examples.idCapability42)
             [capcons.MigratedPathCapability 1%N
                (interpreter.PathCapabilityValue_AddressPath examples.typedCapability)
                examples.refFoo 42%N]
             None).
    vm_compute; reflexivity.
  - apply (Htwice (interpreter.PathCapability examples.typedCapability)).
    vm_compute; reflexivity.
Defined.

(** [[Int]] and [StoragePath?] can be skipped and contain no capability;
    [Bool] can be skipped. *)
Lemma CanSkipCapabilityValueMigration_spec_witness :
  capcons.containsCapability
    (interpreter.VariableSizedStaticType
       (interpreter.PrimitiveStaticTypeOf (interpreter.PrimitiveStaticTypeOther 36)))
  = false
  /\ examples.exampleCanSkip
       (interpreter.PrimitiveStaticTypeOf interpreter.PrimitiveStaticTypeBool) = true
  /\ examples.exampleCanSkip
       (interpreter.PrimitiveStaticTypeOf (interpreter.PrimitiveStaticTypeOther 77)) = true.
Proof.
  pose proof
    (CanSkipCapabilityValueMigration_spec
       examples.exampleIsDeprecated examples.exampleSemaType examples.exampleIsSubType)
    as (Hsound & _ & _ & _ & _ & _ & _ & Hnamed & Hnumber).
  split; [apply Hsound; vm_compute; reflexivity|].
  split.
  - apply Hnamed. simpl. tauto.
  - apply Hnumber; [discriminate | vm_compute; reflexivity | right; vm_compute; reflexivity].
Defined.

(** ** Conformance *)

Section ConformanceTests.
Import sema checker checker_examples.

Abbreviation check := (checkDeclaration IsSubType).

(** [TestCheckTypeRequirementConformance] *)

Example both_empty : check (typeRequirement [] []) = [].
Proof. vm_compute. reflexivity. Qed.

Example additional_function :
  check (typeRequirement [] [function "foo" [] Void]) = [].
Proof. vm_compute. reflexivity. Qed.

Example missing_function :
  check (typeRequirement [function "foo" [] Void] [])
  = [ConformanceError "S" "S" false ["foo"] []].
Proof. vm_compute. reflexivity. Qed.

Example different_argument_label :
  check (typeRequirement
           [function "foo" [parameter noLabel "x" Int] Void]
           [function "foo" [parameter noLabel "y" Int] Void])
  = [ConformanceError "S" "S" false ["foo"] []].
Proof. vm_compute. reflexivity. Qed.

Example different_parameter_type :
  check (typeRequirement
           [function "foo" [parameter noLabel "x" Int] Void]
           [function "foo" [parameter noLabel "x" String_] Void])
  = [ConformanceError "S" "S" false ["foo"] []].
Proof. vm_compute. reflexivity. Qed.

Example different_parameter_name :
  check (typeRequirement
           [function "foo" [parameter "x" "y" String_] Void]
           [function "foo" [parameter "x" "z" String_] Void])
  = [].
Proof. vm_compute. reflexivity. Qed.

Example more_specific_parameter_type :
  check (typeRequirement
           [function "foo" [parameter noLabel "bar" I] Void]
           [function "foo" [parameter noLabel "bar" T] Void])
  = [ConformanceError "S" "S" false ["foo"] []].
Proof. vm_compute. reflexivity. Qed.

Example same_nested_parameter_type :
  check (typeRequirement
           [function "foo" [parameter noLabel "bar" XBar] Void]
           [function "foo" [parameter noLabel "bar" XBar] Void])
  = [].
Proof. vm_compute. reflexivity. Qed.

Example different_nested_parameter_type :
  check (typeRequirement
           [function "foo" [parameter noLabel "bar" XBar] Void]
           [function "foo" [parameter noLabel "bar" YBar] Void])
  = [ConformanceError "S" "S" false ["foo"] []].
Proof. vm_compute. reflexivity. Qed.

(** [TestCheckConformanceWithFunctionSubtype] *)

Example return_type_is_subtype :
  check (S (function "get" [] RI) (function "get" [] R)) = [].
Proof. vm_compute. reflexivity. Qed.

Example return_type_is_supertype :
  check (S (function "get" [] R) (function "get" [] RI))
  = [ConformanceError "S" "SI" false ["get"] []].
Proof. vm_compute. reflexivity. Qed.

Example return_type_is_the_same :
  check (S (function "get" [] R) (function "get" [] R)) = [].
Proof. vm_compute. reflexivity. Qed.

Example parameter_type_is_the_same :
  check (S (function "set" [parameter noLabel "r" RI] Void)
           (function "set" [parameter noLabel "r" RI] Void)) = [].
Proof. vm_compute. reflexivity. Qed.

Example parameter_type_is_subtype :
  check (S (function "set" [parameter noLabel "r" RI] Void)
           (function "set" [parameter noLabel "r" R] Void))
  = [ConformanceError "S" "SI" false ["set"] []].
Proof. vm_compute. reflexivity. Qed.

Example parameter_type_is_supertype :
  check (S (function "set" [parameter noLabel "r" R] Void)
           (function "set" [parameter noLabel "r" RI] Void))
  = [ConformanceError "S" "SI" false ["set"] []].
Proof. vm_compute. reflexivity. Qed.

(** With a struct in place of the event, the different initializer is
    an error. *)
Example struct_in_place_of_event :
  checkProgram IsSubType [structCI; structC]
  = [ConformanceError "E" "E" true [] []].
Proof. vm_compute. reflexivity. Qed.

End ConformanceTests.

Section ConformanceProperties.
Import sema checker.

Variable IsSubType : Type_ -> Type_ -> bool.

(** Subtyping is a partial order; these two laws are used. *)
Hypothesis IsSubType_refl : forall a, IsSubType a a = true.
Hypothesis IsSubType_antisym :
  forall a b, IsSubType a b = true -> IsSubType b a = true -> a = b.

Abbreviation errorsOf := (conformanceErrors IsSubType).

Lemma conformanceErrors_unfold (I C : Declaration) :
  errorsOf I C
  = (if initializerConforms C I
        && bool_decide (missingMembers IsSubType I C = [])
        && bool_decide (missingNestedTypes I C = [])
     then []
     else [ConformanceError
             (DeclarationName C) (DeclarationName I)
             (negb (initializerConforms C I))
             (missingMembers IsSubType I C)
             (missingNestedTypes I C)])
    ++ requirementErrors IsSubType C (Nested I).
Proof.
  destruct I as [name kind init functions conformances nested]. reflexivity.
Qed.

(** One function against one function: the composite is accepted when
    its member satisfies the interface's, and gets one conformance
    error otherwise. *)
Lemma conformanceErrors_one_function (I C : Declaration) (c i : FunctionDeclaration) :
  Functions C = [c] -> Functions I = [i] ->
  Initializer I = None -> Nested I = [] -> HasDefault i = false ->
  errorsOf I C
  = if memberSatisfied IsSubType c i
    then []
    else [ConformanceError (DeclarationName C) (DeclarationName I) false
            [FunctionName i] []].
Proof.
  intros HC HI Hinit Hnested Hdefault.
  rewrite conformanceErrors_unfold.
  unfold initializerConforms, missingMembers, missingNestedTypes, memberConforms,
    requirementErrors.
  rewrite HC, HI, Hinit, Hnested. simpl.
  rewrite Hdefault, !orb_false_r.
  destruct (memberSatisfied IsSubType c i); reflexivity.
Qed.

Lemma sameLabelsAndTypes_match (c i : list Parameter_) :
  sameLabelsAndTypes c i -> parametersMatch c i = true.
Proof.
  intros H. unfold parametersMatch.
  apply andb_true_iff. rewrite !bool_decide_eq_true.
  induction H as [|pc pi c i (Hl & Hne & Ht) _ [IHl IHt]]; [done|].
  unfold argumentLabels, parameterTypes in *. simpl.
  rewrite IHl, IHt, Ht. split; [|reflexivity].
  f_equal. unfold EffectiveArgumentLabel.
  rewrite Hl. by destruct (decide (Label pi = noLabel)).
Qed.

Lemma memberSatisfied_true (c i : FunctionDeclaration) :
  FunctionName c = FunctionName i ->
  parametersMatch (Parameters c) (Parameters i) = true ->
  IsSubType (ReturnType c) (ReturnType i) = true ->
  memberSatisfied IsSubType c i = true.
Proof.
  intros Hn Hp Hr. unfold memberSatisfied.
  by rewrite Hp, Hr, bool_decide_true.
Qed.

Lemma memberSatisfied_parameter_types (c i : FunctionDeclaration) :
  parameterTypes (Parameters c) <> parameterTypes (Parameters i) ->
  memberSatisfied IsSubType c i = false.
Proof.
  intros H. unfold memberSatisfied, parametersMatch.
  rewrite (bool_decide_false _ H).
  by rewrite !andb_false_r.
Qed.

Lemma memberSatisfied_return_type (c i : FunctionDeclaration) :
  IsSubType (ReturnType c) (ReturnType i) = false ->
  memberSatisfied IsSubType c i = false.
Proof. intros H. unfold memberSatisfied. by rewrite H, andb_false_r. Qed.

(** C4. A composite [C] that declares the function [c] is checked
    against an interface [I] that declares the function [i] of the same
    name, without a default.
    - With the same argument labels, the same parameter types and a
      return type that is a subtype of the interface's, [C] is
      accepted; so it is with explicit labels and any parameter names,
      and the same return type.
    - With a parameter type that is a strict subtype or a strict
      supertype of the interface's, [C] is rejected with exactly one
      conformance error.
    - With a return type that is a strict supertype of the
      interface's, [C] is rejected with exactly one conformance
      error. *)
Theorem conformance_of_function_member
  (I C : Declaration) (c i : FunctionDeclaration) :
  Functions C = [c] -> Functions I = [i] ->
  Initializer I = None -> Nested I = [] -> HasDefault i = false ->
  FunctionName c = FunctionName i ->
  (argumentLabels (Parameters c) = argumentLabels (Parameters i) ->
   parameterTypes (Parameters c) = parameterTypes (Parameters i) ->
   IsSubType (ReturnType c) (ReturnType i) = true ->
   errorsOf I C = [])
  /\ (sameLabelsAndTypes (Parameters c) (Parameters i) ->
      ReturnType c = ReturnType i ->
      errorsOf I C = [])
  /\ (forall pc pi,
        Parameters c = [pc] -> Parameters i = [pi] ->
        strictSubType IsSubType (TypeAnnotation pc) (TypeAnnotation pi)
        \/ strictSubType IsSubType (TypeAnnotation pi) (TypeAnnotation pc) ->
        errorsOf I C
        = [ConformanceError (DeclarationName C) (DeclarationName I) false
             [FunctionName i] []])
  /\ (strictSubType IsSubType (ReturnType i) (ReturnType c) ->
      errorsOf I C
      = [ConformanceError (DeclarationName C) (DeclarationName I) false
           [FunctionName i] []]).
Proof.
  intros HC HI Hinit Hnested Hdefault Hname.
  rewrite (conformanceErrors_one_function I C c i HC HI Hinit Hnested Hdefault).
  repeat split.
  - intros Hl Ht Hr. rewrite memberSatisfied_true; try done.
    unfold parametersMatch. by rewrite !bool_decide_true.
  - intros Hp Hr. rewrite memberSatisfied_true; try done.
    + by apply sameLabelsAndTypes_match.
    + rewrite Hr. apply IsSubType_refl.
  - intros pc pi Hc Hi Hstrict. rewrite memberSatisfied_parameter_types; [done|].
    rewrite Hc, Hi. unfold parameterTypes. simpl. intros [= Heq].
    destruct Hstrict as [[_ Hne]|[_ Hne]]; congruence.
  - intros [Hsub Hne]. rewrite memberSatisfied_return_type; [done|].
    destruct (IsSubType (ReturnType c) (ReturnType i)) eqn:Hr; [|reflexivity].
    destruct Hne. by apply IsSubType_antisym.
Qed.

End ConformanceProperties.

(** The subtyping of the test programs is reflexive and antisymmetric. *)
Lemma example_IsSubType_refl (a : sema.Type_) : checker_examples.IsSubType a a = true.
Proof. unfold checker_examples.IsSubType. by rewrite bool_decide_true. Qed.

Lemma example_IsSubType_antisym (a b : sema.Type_) :
  checker_examples.IsSubType a b = true ->
  checker_examples.IsSubType b a = true ->
  a = b.
Proof.
  unfold checker_examples.IsSubType.
  rewrite !orb_true_iff, !bool_decide_eq_true.
  intros [[Hab|[-> ->]]|[-> ->]]; [done| |];
    intros [[Hba|[Hb Ha]]|[Hb Ha]]; done.
Qed.

(** The four cases on the programs of
    [TestCheckTypeRequirementConformance] and
    [TestCheckConformanceWithFunctionSubtype]. *)
Lemma conformance_of_function_member_witness :
  checker.conformanceErrors checker_examples.IsSubType
    (checker_examples.SI (checker_examples.function "get" [] checker_examples.RI))
    (checker_examples.S
       (checker_examples.function "get" [] checker_examples.RI)
       (checker_examples.function "get" [] checker_examples.R))
  = []
  /\ checker.conformanceErrors checker_examples.IsSubType
       (checker_examples.declaration checker.CompositeKindStructure "S" []
          [checker_examples.function "foo"
             [checker_examples.parameter "x" "y" checker_examples.String_]
             checker_examples.Void] [])
       (checker_examples.declaration checker.CompositeKindStructure "S" []
          [checker_examples.function "foo"
             [checker_examples.parameter "x" "z" checker_examples.String_]
             checker_examples.Void] [])
     = []
  /\ checker.conformanceErrors checker_examples.IsSubType
       (checker_examples.SI
          (checker_examples.function "set"
             [checker_examples.parameter checker.noLabel "r" checker_examples.RI]
             checker_examples.Void))
       (checker_examples.S
          (checker_examples.function "set"
             [checker_examples.parameter checker.noLabel "r" checker_examples.RI]
             checker_examples.Void)
          (checker_examples.function "set"
             [checker_examples.parameter checker.noLabel "r" checker_examples.R]
             checker_examples.Void))
     = [checker.ConformanceError "S" "SI" false ["set"] []]
  /\ checker.conformanceErrors checker_examples.IsSubType
       (checker_examples.SI (checker_examples.function "get" [] checker_examples.R))
       (checker_examples.S
          (checker_examples.function "get" [] checker_examples.R)
          (checker_examples.function "get" [] checker_examples.RI))
     = [checker.ConformanceError "S" "SI" false ["get"] []].
Proof.
  split; [|split; [|split]];
    match goal with
    | |- checker.conformanceErrors _ ?I ?C = _ =>
        match eval hnf in (checker.Functions C) with
        | [?c] =>
            match eval hnf in (checker.Functions I) with
            | [?i] =>
                pose proof
                  (conformance_of_function_member checker_examples.IsSubType
                     example_IsSubType_refl example_IsSubType_antisym
                     I C c i eq_refl eq_refl eq_refl eq_refl eq_refl eq_refl)
                  as (Haccepted & Hnames & Hparameter & Hreturn)
            end
        end
    end.
  - apply Haccepted; vm_compute; reflexivity.
  - apply Hnames; [|reflexivity].
    repeat constructor; discriminate.
  - eapply Hparameter; [reflexivity | reflexivity |].
    left. split; [vm_compute; reflexivity | discriminate].
  - apply Hreturn.
    split; [vm_compute; reflexivity | discriminate].
Defined.

Section EventProperties.
Import sema checker.

Variable IsSubType : Type_ -> Type_ -> bool.

(** A type requirement is never met by an event of the composite. *)
Lemma findNested_withoutEvents (C r : Declaration) :
  isTypeRequirement r = true ->
  findNested (withoutEvents C) r = findNested C r.
Proof.
  intros Hr. unfold findNested, withoutEvents. simpl.
  induction (Nested C) as [|n ns IH]; [reflexivity|].
  simpl. destruct (isTypeRequirement n) eqn:Hn; simpl.
  - by rewrite IH.
  - rewrite IH.
    unfold isTypeRequirement in Hr, Hn.
    apply negb_true_iff, bool_decide_eq_false in Hr.
    apply negb_false_iff, bool_decide_eq_true in Hn.
    rewrite (bool_decide_false (Kind n = Kind r)) by congruence.
    by rewrite andb_false_r.
Qed.

Lemma missingNestedTypes_withoutEvents (I C : Declaration) :
  missingNestedTypes (withoutEvents I) (withoutEvents C) = missingNestedTypes I C.
Proof.
  unfold missingNestedTypes. f_equal.
  change (Nested (withoutEvents I)) with (List.filter isTypeRequirement (Nested I)).
  pose proof (findNested_withoutEvents C) as Hfind.
  set (C' := withoutEvents C) in *. clearbody C'.
  induction (Nested I) as [|r rs IH]; [reflexivity|].
  simpl. destruct (isTypeRequirement r) eqn:Hr; simpl; [|exact IH].
  rewrite Hr, (Hfind r Hr). simpl.
  destruct (findNested C r); by rewrite IH.
Qed.

Lemma requirementErrors_withoutEvents (C : Declaration) (rs : list Declaration) :
  requirementErrors IsSubType (withoutEvents C) (List.filter isTypeRequirement rs)
  = requirementErrors IsSubType C rs.
Proof.
  unfold requirementErrors.
  pose proof (findNested_withoutEvents C) as Hfind.
  set (C' := withoutEvents C) in *. clearbody C'.
  induction rs as [|r rs IH]; [reflexivity|].
  simpl. destruct (isTypeRequirement r) eqn:Hr; simpl; [|exact IH].
  by rewrite Hr, (Hfind r Hr), IH.
Qed.

Lemma conformanceErrors_withoutEvents (I C : Declaration) :
  conformanceErrors IsSubType (withoutEvents I) (withoutEvents C)
  = conformanceErrors IsSubType I C.
Proof.
  rewrite !conformanceErrors_unfold.
  rewrite missingNestedTypes_withoutEvents.
  f_equal. apply (requirementErrors_withoutEvents C (Nested I)).
Qed.

(** C8. Events are exempt from conformance: the errors of a composite
    against an interface are those of the two declarations without
    their events, whatever the subtyping; a contract that declares an
    event of the same name as an event of the contract interface it
    conforms to, with any other parameters, checks with no errors; so
    does the contract [C: CI] that declares [event E(b: String)] where
    [CI] declares [event E(a: Int)]. *)
Theorem events_exempt_from_conformance :
  (forall I C,
      conformanceErrors IsSubType I C
      = conformanceErrors IsSubType (withoutEvents I) (withoutEvents C))
  /\ (forall name parameters parameters',
        checkProgram IsSubType
          [checker_examples.contractInterfaceWithEvent name parameters;
           checker_examples.contractWithEvent
             (checker_examples.contractInterfaceWithEvent name parameters)
             name parameters']
        = [])
  /\ checkProgram IsSubType [checker_examples.eventCI; checker_examples.eventC] = [].
Proof.
  split; [|split].
  - intros I C. symmetry. apply conformanceErrors_withoutEvents.
  - reflexivity.
  - reflexivity.
Qed.

End EventProperties.

(** ** The text of a comment *)

Section TextProperties.
Import ast.

Lemma HasPrefix_false_cut (s prefix : list byte) :
  bytes.HasPrefix s prefix = false -> bytes.CutPrefix s prefix = (s, false).
Proof. intros H. unfold bytes.CutPrefix. by rewrite H. Qed.

Lemma CutPrefix_app (prefix rest : list byte) :
  bytes.CutPrefix (prefix ++ rest) prefix = (rest, true).
Proof.
  unfold bytes.CutPrefix.
  rewrite (proj2 (HasPrefix_app (prefix ++ rest) prefix)) by eauto.
  simpl. by rewrite drop_app_length.
Qed.

Lemma HasSuffix_app (s suffix : list byte) :
  bytes.HasSuffix s suffix = true <-> exists body, s = body ++ suffix.
Proof.
  unfold bytes.HasSuffix, bytes.Equal.
  rewrite andb_true_iff, bool_decide_eq_true, Nat.leb_le.
  split.
  - intros [Hlen Hdrop]. exists (take (length s - length suffix) s).
    rewrite <- Hdrop at 2. symmetry. apply take_drop.
  - intros [body ->]. rewrite length_app. split; [lia|].
    replace (length body + length suffix - length suffix)%nat with (length body) by lia.
    by rewrite drop_app_length.
Qed.

Lemma CutSuffix_app (body suffix : list byte) :
  bytes.CutSuffix (body ++ suffix) suffix = (body, true).
Proof.
  unfold bytes.CutSuffix.
  rewrite (proj2 (HasSuffix_app (body ++ suffix) suffix)) by eauto.
  simpl. rewrite length_app.
  replace (length body + length suffix - length suffix)%nat with (length body) by lia.
  by rewrite take_app_length.
Qed.

Lemma HasSuffix_false_cut (s suffix : list byte) :
  bytes.HasSuffix s suffix = false -> bytes.CutSuffix s suffix = (s, false).
Proof. intros H. unfold bytes.CutSuffix. by rewrite H. Qed.

(** What [CutPrefix] returns is the end of its input, and what it
    dropped is the prefix or nothing. *)
Lemma CutPrefix_suffix (s prefix : list byte) :
  exists dropped,
    s = dropped ++ (bytes.CutPrefix s prefix).1
    /\ (dropped = [] \/ dropped = prefix).
Proof.
  destruct (bytes.HasPrefix s prefix) eqn:H.
  - apply HasPrefix_app in H as [rest ->]. rewrite CutPrefix_app.
    exists prefix. eauto.
  - rewrite (HasPrefix_false_cut _ _ H). exists []. eauto.
Qed.

Lemma CutSuffix_prefix (s suffix : list byte) :
  exists dropped,
    s = (bytes.CutSuffix s suffix).1 ++ dropped
    /\ (dropped = [] \/ dropped = suffix).
Proof.
  destruct (bytes.HasSuffix s suffix) eqn:H.
  - apply HasSuffix_app in H as [body ->]. rewrite CutSuffix_app.
    exists suffix. eauto.
  - rewrite (HasSuffix_false_cut _ _ H). exists []. rewrite app_nil_r. eauto.
Qed.

Lemma cutOptionalPrefixes_suffix (prefixes : list (list byte)) (input : list byte) :
  exists dropped,
    input = dropped ++ cutOptionalPrefixes input prefixes
    /\ length dropped <= sum_list (length <$> prefixes).
Proof.
  revert input. induction prefixes as [|prefix prefixes IH]; intros input.
  - exists []. split; [reflexivity | simpl; lia].
  - unfold cutOptionalPrefixes. simpl.
    destruct (CutPrefix_suffix input prefix) as (d1 & H1 & Hd1).
    destruct (IH (bytes.CutPrefix input prefix).1) as (d2 & H2 & Hd2).
    exists (d1 ++ d2). split.
    + rewrite <- app_assoc. unfold cutOptionalPrefixes in H2. by rewrite <- H2.
    + rewrite length_app.
      change (list_fmap (list byte) nat length prefixes) with (length <$> prefixes).
      destruct Hd1 as [-> | ->]; simpl; lia.
Qed.

(** X1. [Text] is a contiguous part of the source: the source is an
    opening of at most ten bytes, then the text, then nothing or the
    closing "*/".  So the text is never longer than the source and
    holds no byte that the source does not hold. *)
Theorem Text_part_of_source (c : Comment) :
  exists opening closing,
    source c = opening ++ Text c ++ closing
    /\ length opening <= 10
    /\ (closing = [] \/ closing = blockCommentStringSuffix)
    /\ length (Text c) <= length (source c).
Proof.
  unfold Text.
  destruct (cutOptionalPrefixes_suffix
              [blockCommentDocStringPrefix; blockCommentStringPrefix;
               lineCommentDocStringPrefix; lineCommentStringPrefix]
              (source c)) as (opening & Ho & Hlen).
  set (withoutPrefixes := cutOptionalPrefixes _ _) in *.
  unfold cutOptionalSuffixes. simpl.
  destruct (CutSuffix_prefix withoutPrefixes blockCommentStringSuffix)
    as (closing & Hc & Hclosing).
  exists opening, closing.
  split; [by rewrite <- Hc|].
  split; [simpl in Hlen; lia|].
  split; [exact Hclosing|].
  apply (f_equal length) in Ho, Hc. rewrite !length_app in *. lia.
Qed.
Lemma HasPrefix_app_app (p q r : list byte) :
  bytes.HasPrefix (p ++ r) (p ++ q) = bytes.HasPrefix r q.
Proof.
  apply eq_true_iff_eq. rewrite !HasPrefix_app. split.
  - intros [rest H]. exists rest. rewrite <- app_assoc in H. by apply app_inv_head in H.
  - intros [rest ->]. exists rest. by rewrite <- app_assoc.
Qed.

Lemma HasPrefix_longer (s p q : list byte) :
  bytes.HasPrefix s p = false -> bytes.HasPrefix s (p ++ q) = false.
Proof.
  intros H. apply not_true_is_false. intros [rest ->]%HasPrefix_app.
  rewrite <- app_assoc, (proj2 (HasPrefix_app _ _)) in H by eauto. discriminate.
Qed.

Ltac no_prefix :=
  apply not_true_is_false; intros [? ?]%HasPrefix_app; simplify_eq.

(** X2. The text of a block comment is its body.  Let the body,
    followed by the closing "*/", not begin with "//".  Then
    [/*body*/] has the text [body] if body and closing do not begin
    with "*", and [/**body*/] has the text [body] if they do not begin
    with "/*". *)
Theorem Text_block_comment (body : list byte) :
  bytes.HasPrefix (body ++ blockCommentStringSuffix) lineCommentStringPrefix = false ->
  (bytes.HasPrefix (body ++ blockCommentStringSuffix) [x2a] = false ->
   Text (NewComment (blockCommentStringPrefix ++ body ++ blockCommentStringSuffix))
   = body)
  /\ (bytes.HasPrefix (body ++ blockCommentStringSuffix) blockCommentStringPrefix = false ->
      Text (NewComment (blockCommentDocStringPrefix ++ body ++ blockCommentStringSuffix))
      = body).
Proof.
  intros Hline.
  pose proof (HasPrefix_longer _ _ [x2f] Hline) as Hdocline.
  change (lineCommentStringPrefix ++ [x2f]) with lineCommentDocStringPrefix in Hdocline.
  split.
  - intros Hstar. unfold Text, cutOptionalPrefixes, cutOptionalSuffixes. cbn [fold_left source].
    assert (Hdoc : bytes.HasPrefix
                     (blockCommentStringPrefix ++ body ++ blockCommentStringSuffix)
                     blockCommentDocStringPrefix = false).
    { change blockCommentDocStringPrefix with (blockCommentStringPrefix ++ [x2a]).
      by rewrite HasPrefix_app_app. }
    rewrite (HasPrefix_false_cut _ _ Hdoc). cbn [fst].
    rewrite CutPrefix_app. cbn [fst].
    rewrite (HasPrefix_false_cut _ _ Hdocline). cbn [fst].
    rewrite (HasPrefix_false_cut _ _ Hline). cbn [fst].
    by rewrite CutSuffix_app.
  - intros Hblock. unfold Text, cutOptionalPrefixes, cutOptionalSuffixes. cbn [fold_left source].
    rewrite CutPrefix_app. cbn [fst].
    rewrite (HasPrefix_false_cut _ _ Hblock). cbn [fst].
    rewrite (HasPrefix_false_cut _ _ Hdocline). cbn [fst].
    rewrite (HasPrefix_false_cut _ _ Hline). cbn [fst].
    by rewrite CutSuffix_app.
Qed.

(** X3. The text of a line comment is what follows the marker, less a
    closing "*/" at its end: [//rest] when [rest] does not begin with
    "/", and [///rest] when [rest] does not begin with "//".  What
    is left is [rest] itself when it does not end with "*/", and
    [body] when [rest] is [body*/]. *)
Theorem Text_line_comment (rest : list byte) :
  (bytes.HasPrefix rest [x2f] = false ->
   Text (NewComment (lineCommentStringPrefix ++ rest))
   = (bytes.CutSuffix rest blockCommentStringSuffix).1)
  /\ (bytes.HasPrefix rest lineCommentStringPrefix = false ->
      Text (NewComment (lineCommentDocStringPrefix ++ rest))
      = (bytes.CutSuffix rest blockCommentStringSuffix).1)
  /\ (bytes.HasSuffix rest blockCommentStringSuffix = false ->
      (bytes.CutSuffix rest blockCommentStringSuffix).1 = rest)
  /\ (forall body,
        rest = body ++ blockCommentStringSuffix ->
        (bytes.CutSuffix rest blockCommentStringSuffix).1 = body).
Proof.
  split; [|split; [|split]].
  - intros Hslash. unfold Text, cutOptionalPrefixes, cutOptionalSuffixes. cbn [fold_left source].
    assert (H1 : bytes.HasPrefix (lineCommentStringPrefix ++ rest)
                   blockCommentDocStringPrefix = false) by no_prefix.
    assert (H2 : bytes.HasPrefix (lineCommentStringPrefix ++ rest)
                   blockCommentStringPrefix = false) by no_prefix.
    assert (H3 : bytes.HasPrefix (lineCommentStringPrefix ++ rest)
                   lineCommentDocStringPrefix = false).
    { change lineCommentDocStringPrefix with (lineCommentStringPrefix ++ [x2f]).
      by rewrite HasPrefix_app_app. }
    rewrite (HasPrefix_false_cut _ _ H1). cbn [fst].
    rewrite (HasPrefix_false_cut _ _ H2). cbn [fst].
    rewrite (HasPrefix_false_cut _ _ H3). cbn [fst].
    by rewrite CutPrefix_app.
  - intros Hline. unfold Text, cutOptionalPrefixes, cutOptionalSuffixes. cbn [fold_left source].
    assert (H1 : bytes.HasPrefix (lineCommentDocStringPrefix ++ rest)
                   blockCommentDocStringPrefix = false) by no_prefix.
    assert (H2 : bytes.HasPrefix (lineCommentDocStringPrefix ++ rest)
                   blockCommentStringPrefix = false) by no_prefix.
    rewrite (HasPrefix_false_cut _ _ H1). cbn [fst].
    rewrite (HasPrefix_false_cut _ _ H2). cbn [fst].
    rewrite CutPrefix_app. cbn [fst].
    by rewrite (HasPrefix_false_cut _ _ Hline).
  - intros H. by rewrite (HasSuffix_false_cut _ _ H).
  - intros body ->. by rewrite CutSuffix_app.
Qed.

End TextProperties.

(** [/* x */] and [/** x */] have the text [ x ]. *)
Lemma Text_block_comment_witness :
  ast.Text (ast.NewComment [x2f; x2a; x20; x78; x20; x2a; x2f]) = [x20; x78; x20]
  /\ ast.Text (ast.NewComment [x2f; x2a; x2a; x20; x78; x20; x2a; x2f])
     = [x20; x78; x20].
Proof.
  pose proof (Text_block_comment [x20; x78; x20] eq_refl) as (Hblock & Hdoc).
  split.
  - apply Hblock. reflexivity.
  - apply Hdoc. reflexivity.
Defined.

(** [// x] and [/// x] have the text [ x]; a closing "*/" at the end of
    [ x*/] is cut. *)
Lemma Text_line_comment_witness :
  ast.Text (ast.NewComment [x2f; x2f; x20; x78]) = [x20; x78]
  /\ ast.Text (ast.NewComment [x2f; x2f; x2f; x20; x78]) = [x20; x78]
  /\ (bytes.CutSuffix [x20; x78; x2a; x2f] ast.blockCommentStringSuffix).1 = [x20; x78].
Proof.
  pose proof (Text_line_comment [x20; x78]) as (Hline & Hdoc & Hkept & _).
  pose proof (Text_line_comment [x20; x78; x2a; x2f]) as (_ & _ & _ & Hcut).
  split; [|split].
  - rewrite <- (Hkept eq_refl) at 2. apply Hline. reflexivity.
  - rewrite <- (Hkept eq_refl) at 2. apply Hdoc. reflexivity.
  - apply Hcut. reflexivity.
Defined.

(** ** More on the path capability value *)

Section PathCapabilityBehaviour.
Import errors common interpreter.

(** X4. [Equal] is an equivalence on path capability values: every
    value equals itself, [a] equals [b] exactly when [b] equals [a],
    and equality passes from [a], [b] and [b], [c] to [a], [c]; which
    interpreter is passed makes no difference. *)
Theorem Equal_equivalence (a b c : PathCapabilityValue) (interpreter interpreter' : Interpreter) :
  Equal a interpreter (PathCapability a) = true
  /\ Equal a interpreter (PathCapability b) = Equal b interpreter' (PathCapability a)
  /\ (Equal a interpreter (PathCapability b) = true ->
      Equal b interpreter (PathCapability c) = true ->
      Equal a interpreter (PathCapability c) = true).
Proof.
  split; [by apply Equal_same|].
  split.
  - apply eq_true_iff_eq. rewrite !Equal_same. split; congruence.
  - rewrite !Equal_same. congruence.
Qed.

Lemma eqb_false_of_ne (a b : string) : a <> b -> String.eqb a b = false.
Proof. intros H. by apply String.eqb_neq. Qed.

(** X5. The members of a path capability value.  "address" is the
    address of the value and "id" is the invalid capability id 0,
    whatever the value; every name other than "borrow", "check",
    "address" and "id" gives nil; and [GetMember] panics only under
    the names "borrow" and "check", with the panic of the conversion
    of the borrow type of the value. *)
Theorem GetMember_members
  (v : PathCapabilityValue) (interpreter : Interpreter) (name : string) :
  GetMember v interpreter "address" = Returned (Some (MemberValue (Address_ (address v))))
  /\ GetMember v interpreter "id" = Returned (Some (MemberValue (UInt64 0%N)))
  /\ (name <> "borrow" -> name <> "check" -> name <> "address" -> name <> "id" ->
      GetMember v interpreter name = Returned None)
  /\ (forall e,
        GetMember v interpreter name = Panicked e ->
        (name = "borrow" \/ name = "check")
        /\ exists borrowType,
             BorrowType v = Some borrowType
             /\ MustConvertStaticToSemaType interpreter borrowType = Panicked e).
Proof.
  split; [reflexivity|]. split; [reflexivity|]. split.
  - intros Hb Hc Ha Hi. unfold GetMember.
    by rewrite !eqb_false_of_ne.
  - intros e. unfold GetMember.
    assert (Hconv : semaBorrowType v interpreter = Panicked e ->
                    exists borrowType,
                      BorrowType v = Some borrowType
                      /\ MustConvertStaticToSemaType interpreter borrowType = Panicked e).
    { unfold semaBorrowType. destruct (BorrowType v) as [t|]; [|discriminate].
      destruct (MustConvertStaticToSemaType interpreter t) eqn:Ht; [discriminate|].
      intros [= ->]. eauto. }
    destruct (String.eqb name sema.CapabilityTypeBorrowFunctionName) eqn:Hb.
    { apply String.eqb_eq in Hb.
      destruct (semaBorrowType v interpreter); [discriminate|].
      intros [= ->]. split; [left; exact Hb | by apply Hconv]. }
    destruct (String.eqb name sema.CapabilityTypeCheckFunctionName) eqn:Hc.
    { apply String.eqb_eq in Hc.
      destruct (semaBorrowType v interpreter); [discriminate|].
      intros [= ->]. split; [right; exact Hc | by apply Hconv]. }
    destruct (String.eqb name sema.CapabilityTypeAddressFieldName); [discriminate|].
    destruct (String.eqb name sema.CapabilityTypeIDFieldName); discriminate.
Qed.

End PathCapabilityBehaviour.

Lemma Equal_equivalence_witness :
  interpreter.Equal examples.typedCapability examples.exampleInterpreter
    (interpreter.PathCapability examples.typedCapability) = true
  /\ interpreter.Equal examples.typedCapability examples.exampleInterpreter
       (interpreter.PathCapability examples.untypedCapability)
     = interpreter.Equal examples.untypedCapability examples.exampleInterpreter
         (interpreter.PathCapability examples.typedCapability)
  /\ interpreter.Equal examples.typedCapability examples.exampleInterpreter
       (interpreter.PathCapability examples.typedCapability) = true.
Proof.
  pose proof
    (Equal_equivalence examples.typedCapability examples.typedCapability
       examples.typedCapability examples.exampleInterpreter examples.exampleInterpreter)
    as (Hrefl & _ & Htrans).
  pose proof
    (Equal_equivalence examples.typedCapability examples.untypedCapability
       examples.typedCapability examples.exampleInterpreter examples.exampleInterpreter)
    as (_ & Hsym & _).
  split; [exact Hrefl|]. split; [exact Hsym|].
  apply Htrans; vm_compute; reflexivity.
Defined.

(** The name "foo" gives nil; "borrow" on a capability whose borrow
    type does not convert panics as the conversion does. *)
Lemma GetMember_members_witness :
  interpreter.GetMember examples.typedCapability examples.exampleInterpreter "foo"
  = errors.Returned None
  /\ (("borrow" = "borrow" \/ "borrow" = "check")
      /\ exists borrowType,
           interpreter.BorrowType examples.unconvertibleCapability = Some borrowType
           /\ interpreter.MustConvertStaticToSemaType examples.exampleInterpreter
                borrowType
              = errors.Panicked (errors.UnexpectedError "cannot convert static type")).
Proof.
  split.
  - apply (GetMember_members examples.typedCapability examples.exampleInterpreter "foo");
      discriminate.
  - apply (GetMember_members examples.unconvertibleCapability
             examples.exampleInterpreter "borrow").
    vm_compute. reflexivity.
Defined.

Section StringProperties.
Import errors common interpreter.

Variable SeenReferences : Type.
Variable emptySeenReferences : SeenReferences.
Variable AddressValue_RecursiveString : AddressValue -> SeenReferences -> string.
Variable PathValue_RecursiveString : PathValue -> SeenReferences -> string.
Variable StaticType_String : StaticType -> string.

Abbreviation render :=
  (RecursiveString SeenReferences AddressValue_RecursiveString
     PathValue_RecursiveString StaticType_String).

(** X6. The rendering shows whether there is a borrow type: a
    capability without a borrow type and one with a borrow type are
    never rendered alike by [RecursiveString] or by [String], whatever
    the renderings of their addresses, paths and borrow types. *)
Theorem RecursiveString_shows_borrow_type
  (v v' : PathCapabilityValue) (seenReferences seenReferences' : SeenReferences) :
  BorrowType v = None ->
  BorrowType v' <> None ->
  render v seenReferences <> render v' seenReferences'
  /\ String_ SeenReferences emptySeenReferences AddressValue_RecursiveString
       PathValue_RecursiveString StaticType_String v
     <> String_ SeenReferences emptySeenReferences AddressValue_RecursiveString
          PathValue_RecursiveString StaticType_String v'.
Proof.
  intros Hv Hv'. unfold String_, RecursiveString. rewrite Hv.
  destruct (BorrowType v') as [t|]; [|done].
  split; simpl; intros H; discriminate.
Qed.

End StringProperties.

Lemma RecursiveString_shows_borrow_type_witness :
  interpreter.RecursiveString unit examples.renderAddress examples.renderPath
    examples.renderStaticType examples.untypedCapability tt
  <> interpreter.RecursiveString unit examples.renderAddress examples.renderPath
       examples.renderStaticType examples.typedCapability tt
  /\ interpreter.String_ unit tt examples.renderAddress examples.renderPath
       examples.renderStaticType examples.untypedCapability
     <> interpreter.String_ unit tt examples.renderAddress examples.renderPath
          examples.renderStaticType examples.typedCapability.
Proof.
  apply (RecursiveString_shows_borrow_type unit tt examples.renderAddress
           examples.renderPath examples.renderStaticType
           examples.untypedCapability examples.typedCapability tt tt).
  - reflexivity.
  - discriminate.
Defined.

(** ** The encoding tells path capability values apart *)

Section Injective.
Import errors common interpreter capcons examples.

Lemma positiveBytes_prefix_free (p q : positive) (r r' : list byte) :
  positiveBytes p ++ r = positiveBytes q ++ r' -> p = q.
Proof.
  revert q. induction p as [p' IH|p' IH|]; intros q; destruct q as [q'|q'|]; simpl;
    intros H; try discriminate; try reflexivity; injection H as H; f_equal; by apply IH.
Qed.

Lemma primitiveCode_inj (p q : PrimitiveStaticType) :
  primitiveCode p = primitiveCode q -> p = q.
Proof. destruct p, q; simpl; intros H; try lia; try reflexivity. f_equal. lia. Qed.

Lemma authorizationTree_inj (a b : Authorization) :
  authorizationTree a = authorizationTree b -> a = b.
Proof. destruct a, b; simpl; intros H; by simplify_eq. Qed.

Lemma staticTypeTree_inj (t u : StaticType) :
  staticTypeTree t = staticTypeTree u -> t = u.
Proof.
  revert t u. fix staticTypeTree_inj 1. intros t u.
  destruct t as [p|t|k v|t|t n|[t|]|a t|i|i|ids],
           u as [q|u|k' v'|u|u m|[u|]|b u|j|j|jds];
    simpl; intros H; try discriminate; try reflexivity;
    injection H as H; try discriminate.
  - f_equal. by apply primitiveCode_inj.
  - f_equal. by apply staticTypeTree_inj.
  - f_equal; by apply staticTypeTree_inj.
  - f_equal. by apply staticTypeTree_inj.
  - f_equal; [by apply staticTypeTree_inj | done].
  - do 2 f_equal. by apply staticTypeTree_inj.
  - f_equal; [by apply authorizationTree_inj | by apply staticTypeTree_inj].
  - by f_equal.
  - by f_equal.
  - by f_equal.
Qed.

End Injective.

Section EncodeInjective.
Import errors common interpreter.

Variable CBORTagPathCapabilityValue : byte.
Variable EncodeRawBytes : list byte -> Encoder -> Encoder * option error.
Variable EncodeNil : Encoder -> Encoder * option error.
Variable AddressValue_Encode : AddressValue -> Encoder -> Encoder * option error.
Variable PathValue_Encode : PathValue -> Encoder -> Encoder * option error.
Variable StaticType_Encode : StaticType -> Encoder -> Encoder * option error.
Variable addressBytes : AddressValue -> list byte.
Variable pathBytes : PathValue -> list byte.
Variable staticTypeBytes : StaticType -> list byte.

Hypothesis EncodeRawBytes_appends : forall b e e',
  EncodeRawBytes b e = (e', None) -> e' = e ++ b.
Hypothesis EncodeNil_appends : forall e e',
  EncodeNil e = (e', None) -> e' = e ++ [cborNil].
Hypothesis AddressValue_Encode_appends : forall a e e',
  AddressValue_Encode a e = (e', None) -> e' = e ++ addressBytes a.
Hypothesis PathValue_Encode_appends : forall p e e',
  PathValue_Encode p e = (e', None) -> e' = e ++ pathBytes p.
Hypothesis StaticType_Encode_appends : forall t e e',
  StaticType_Encode t e = (e', None) -> e' = e ++ staticTypeBytes t.

(** The encodings of addresses and paths are self-delimiting, that of
    static types tells static types apart and is never the nil byte. *)
Hypothesis addressBytes_self_delimiting : forall a a' rest rest',
  addressBytes a ++ rest = addressBytes a' ++ rest' -> a = a'.
Hypothesis pathBytes_self_delimiting : forall p p' rest rest',
  pathBytes p ++ rest = pathBytes p' ++ rest' -> p = p'.
Hypothesis staticTypeBytes_injective : forall t t',
  staticTypeBytes t = staticTypeBytes t' -> t = t'.
Hypothesis staticTypeBytes_not_nil : forall t, staticTypeBytes t <> [cborNil].

Abbreviation encode :=
  (Encode CBORTagPathCapabilityValue EncodeRawBytes EncodeNil
     AddressValue_Encode PathValue_Encode StaticType_Encode).

Lemma Encode_written (v : PathCapabilityValue) (e e' : Encoder) :
  encode v e = (e', None) ->
  e' = e ++ [xd8; CBORTagPathCapabilityValue; x83]
         ++ addressBytes (address v)
         ++ pathBytes (Path v)
         ++ borrowTypeBytes staticTypeBytes (BorrowType v).
Proof.
  intros H. unfold Encode in H.
  destruct (EncodeRawBytes _ e) as [e1 [err|]] eqn:H1; [discriminate|].
  destruct (AddressValue_Encode _ e1) as [e2 [err|]] eqn:H2; [discriminate|].
  destruct (PathValue_Encode _ e2) as [e3 [err|]] eqn:H3; [discriminate|].
  apply EncodeRawBytes_appends in H1.
  apply AddressValue_Encode_appends in H2.
  apply PathValue_Encode_appends in H3.
  subst e1 e2 e3.
  unfold borrowTypeBytes. destruct (BorrowType v) as [t|].
  - apply StaticType_Encode_appends in H. rewrite H. by rewrite <- !app_assoc.
  - apply EncodeNil_appends in H. rewrite H. by rewrite <- !app_assoc.
Qed.

(** X7. [Encode] is injective: when the encodings of addresses and of
    paths are self-delimiting and the encoding of static types tells
    them apart and is never the nil byte, two path capability values
    that [Encode] writes as the same bytes onto the same stream are
    the same value. *)
Theorem Encode_injective (v v' : PathCapabilityValue) (e e' : Encoder) :
  encode v e = (e', None) ->
  encode v' e = (e', None) ->
  v = v'.
Proof.
  intros H H'. apply Encode_written in H, H'. rewrite H in H'.
  apply app_inv_head in H'. simpl in H'. injection H' as H'.
  pose proof (addressBytes_self_delimiting _ _ _ _ H') as Ha.
  rewrite Ha in H'. apply app_inv_head in H'.
  pose proof (pathBytes_self_delimiting _ _ _ _ H') as Hp.
  rewrite Hp in H'. apply app_inv_head in H'.
  destruct v as [bt p a], v' as [bt' p' a']. simpl in *. subst. f_equal.
  unfold borrowTypeBytes in H'.
  destruct bt as [t|], bt' as [t'|].
  - f_equal. by apply staticTypeBytes_injective.
  - by destruct (staticTypeBytes_not_nil t).
  - by destruct (staticTypeBytes_not_nil t').
  - reflexivity.
Qed.

End EncodeInjective.

(** With self-delimiting encodings of the three fields. *)
Lemma Encode_injective_witness :
  examples.typedCapability
  = {| interpreter.BorrowType :=
         Some (interpreter.ReferenceStaticTypeOf interpreter.Unauthorized
                 (interpreter.CompositeStaticType "Foo"));
       interpreter.Path := examples.publicX;
       interpreter.address := 1%N |}.
Proof.
  eapply
    (Encode_injective examples.exampleTag examples.bufferRawBytes examples.bufferNil
       (fun a e => (e ++ examples.selfDelimitingAddress a, None))
       (fun p e => (e ++ examples.selfDelimitingPath p, None))
       (fun t e => (e ++ examples.selfDelimitingStaticType t, None))
       examples.selfDelimitingAddress examples.selfDelimitingPath
       examples.selfDelimitingStaticType
       ltac:(by intros ??? [= <-]) ltac:(by intros ?? [= <-])
       ltac:(by intros ??? [= <-]) ltac:(by intros ??? [= <-])
       ltac:(by intros ??? [= <-]) _ _ _ _ _ _ []).
  Unshelve.
  all: try (vm_compute; reflexivity).
  - intros a a' r r' H. apply positiveBytes_prefix_free in H. by apply (inj encode).
  - intros p p' r r' H. apply positiveBytes_prefix_free in H. by apply (inj encode).
  - intros t t' [= H].
    apply staticTypeTree_inj, (inj encode), (positiveBytes_prefix_free _ _ [] []).
    by rewrite !app_nil_r.
  - discriminate.
Defined.

(** ** More on the capability migration *)

Section MigrationBehaviour.
Import errors common interpreter capcons.

Variable StaticType_ID : StaticType -> TypeID.

Abbreviation migrate := (Migrate StaticType_ID).
Abbreviation entryOf := (selectedEntry StaticType_ID).

(** The migration of a path capability ends in one of the four ways. *)
Lemma migratePath_cases
  (m : CapabilityValueMigration) (c : PathCapabilityValue) (storageKey : StorageKey) :
  MigrationCase StaticType_ID m c storageKey (migratePathCapabilityValue StaticType_ID m c storageKey).
Proof.
  destruct (entryOf m c) as [[[capabilityID controller]|]|] eqn:He.
  - destruct (asReferenceStaticType (resolvedBorrowType c controller)) as [r|] eqn:Hr.
    + rewrite (migratePath_found _ _ _ _ _ _ _ He Hr).
      rewrite <- (asReferenceStaticType_asStaticType _ _ Hr).
      by eapply case_migrated.
    + rewrite (migratePath_non_reference _ _ _ _ _ _ He Hr).
      by eapply case_non_reference.
  - rewrite (migratePath_missing _ _ _ _ He). by apply case_missing.
  - rewrite (migratePath_unknown_domain _ _ _ _ He). by apply case_unknown_domain.
Qed.

Lemma selectedEntry_unknown (m : CapabilityValueMigration) (c : PathCapabilityValue) :
  entryOf m c = None <-> Domain (Path c) = PathDomainUnknown.
Proof.
  unfold selectedEntry. destruct (Domain (Path c)); [done| |done|done].
  by destruct (BorrowType c).
Qed.

(** X8. [Migrate] panics in two cases only, and in each of them
    always: the value is a path capability whose path has an unknown
    domain (unexpected path domain); or it is a path capability for
    which the selected table has an entry while the resolved borrow
    type is no reference type (unexpected non-reference borrow
    type).  In particular a missing entry never leads to a panic. *)
Theorem Migrate_panics_iff
  (m : CapabilityValueMigration) (storageKey : StorageKey) (storageMapKey : string)
  (value : Value) (e : InternalError) :
  result (migrate m storageKey storageMapKey value) = Panicked e <->
  exists c,
    value = PathCapability c
    /\ ((Domain (Path c) = PathDomainUnknown
         /\ e = UnexpectedError "unexpected path domain: %s")
        \/ (exists capabilityID controller,
               entryOf m c = Some (Some (capabilityID, controller))
               /\ asReferenceStaticType (resolvedBorrowType c controller) = None
               /\ e = UnexpectedError "unexpected non-reference borrow type: %T")).
Proof.
  split.
  - destruct value as [| | | | | | | |c|]; try discriminate. simpl.
    intros H. exists c. split; [reflexivity|].
    destruct (migratePath_cases m c storageKey) as [He|He|id ctrl He Hr|id ctrl r He Hr];
      simpl in H; try discriminate; injection H as <-.
    + left. by apply selectedEntry_unknown in He.
    + right. eauto 6.
  - intros (c & -> & [[Hd ->]|(id & ctrl & He & Hr & ->)]); simpl.
    + apply (selectedEntry_unknown m) in Hd.
      by rewrite (migratePath_unknown_domain _ _ _ _ Hd).
    + by rewrite (migratePath_non_reference _ _ _ _ _ _ He Hr).
Qed.

(** X9. What [Migrate] returns: the error is always nil, and a
    replacement is always an id capability that stands for a path
    capability, with a reference type as borrow type (never nil) and
    the address of the path capability. *)
Theorem Migrate_returns
  (m : CapabilityValueMigration) (storageKey : StorageKey) (storageMapKey : string)
  (value : Value) (returned : option Value) (err : option error) :
  result (migrate m storageKey storageMapKey value) = Returned (returned, err) ->
  err = None
  /\ forall replacement,
       returned = Some replacement ->
       exists c newCapability newBorrowType,
         value = PathCapability c
         /\ replacement = IDCapability newCapability
         /\ IDCapabilityValue_BorrowType newCapability
            = Some (ReferenceStaticType_asStaticType newBorrowType)
         /\ IDCapabilityValue_Address newCapability = address c.
Proof.
  destruct value as [| | | | | | | |c|]; simpl;
    try (intros [= <- <-]; split; [reflexivity | discriminate]).
  destruct (migratePath_cases m c storageKey) as [He|He|id ctrl He Hr|id ctrl r He Hr];
    simpl; try discriminate.
  - intros [= <- <-]. split; [reflexivity | discriminate].
  - intros [= <- <-]. split; [reflexivity|].
    intros replacement [= <-]. eauto 10.
Qed.

(** X10. What the migration of a path capability reports follows from
    what it returns: with a replacement one [MigratedPathCapability]
    that carries the id and the borrow type of the replacement,
    without a replacement one [MissingCapabilityID], and nothing with
    a panic; each for the account of the storage key and the
    address-path of the capability, and only when the migration has a
    reporter. *)
Theorem Migrate_report_follows_result
  (m : CapabilityValueMigration) (storageKey : StorageKey) (storageMapKey : string)
  (c : PathCapabilityValue) :
  calls (migrate m storageKey storageMapKey (PathCapability c))
  = reported m
      (reportFor storageKey c
         (result (migrate m storageKey storageMapKey (PathCapability c)))).
Proof.
  simpl.
  destruct (migratePath_cases m c storageKey) as [He|He|id ctrl He Hr|id ctrl r He Hr];
    cbn [calls result fst snd reportFor].
  - unfold reported. by destruct (Reporter m).
  - reflexivity.
  - unfold reported. by destruct (Reporter m).
  - cbn [NewUnmeteredCapabilityValue IDCapabilityValue_BorrowType ID].
    by rewrite asReferenceStaticType_controller.
Qed.

(** X11. [Migrate] makes at most one call on the reporter for a
    value; every call carries the address of the storage key as the
    account address; and [MissingBorrowType] is never called. *)
Theorem Migrate_calls
  (m : CapabilityValueMigration) (storageKey : StorageKey) (storageMapKey : string)
  (value : Value) :
  length (calls (migrate m storageKey storageMapKey value)) <= 1
  /\ Forall
       (fun call =>
          accountAddressOf call = StorageKey_Address storageKey
          /\ forall accountAddress addressPath,
               call <> MissingBorrowType accountAddress addressPath)
       (calls (migrate m storageKey storageMapKey value)).
Proof.
  destruct value as [| | | | | | | |c|]; simpl;
    try (split; [lia | constructor]).
  destruct (migratePath_cases m c storageKey) as [He|He|id ctrl He Hr|id ctrl r He Hr];
    unfold reported; simpl; try (split; [lia | constructor]);
    destruct (Reporter m); simpl; (split; [lia|]);
    repeat constructor; done.
Qed.

(** X12. The reporter is advisory: what [Migrate] returns, or the
    panic it ends in, is the same with any reporter and with none; and
    without a reporter nothing is reported. *)
Theorem Migrate_reporter_advisory
  (m : CapabilityValueMigration) (reporter : option CapabilityMigrationReporter)
  (storageKey : StorageKey) (storageMapKey : string) (value : Value) :
  result (migrate (withReporter m reporter) storageKey storageMapKey value)
  = result (migrate m storageKey storageMapKey value)
  /\ calls (migrate (withReporter m None) storageKey storageMapKey value) = [].
Proof.
  destruct value as [| | | | | | | |c|]; simpl; try done.
  rewrite !migratePath_by_entry.
  assert (Hentry : forall r, entryOf (withReporter m r) c = entryOf m c) by done.
  rewrite !Hentry.
  destruct (entryOf m c) as [[[capabilityID controller]|]|]; simpl; try done.
  unfold afterSwitchOutcome.
  by destruct (asReferenceStaticType (resolvedBorrowType c controller)).
Qed.

(** X13. The migration of a path capability reads one table only: the
    private/public table for a private or public path, the typed
    storage table for a storage path with a borrow type, the untyped
    storage table for a storage path without one.  Two migrations
    that agree on that table and on the reporter do the same, whatever
    their other tables hold. *)
Theorem Migrate_reads_selected_table
  (m m' : CapabilityValueMigration) (storageKey : StorageKey) (storageMapKey : string)
  (c : PathCapabilityValue) :
  sameSelectedTable m m' c ->
  Reporter m = Reporter m' ->
  migrate m storageKey storageMapKey (PathCapability c)
  = migrate m' storageKey storageMapKey (PathCapability c).
Proof.
  intros Htable Hreporter. simpl. rewrite !migratePath_by_entry.
  assert (Hentry : entryOf m c = entryOf m' c).
  { unfold selectedEntry, sameSelectedTable in *.
    destruct (Domain (Path c)); [done| |by rewrite Htable|by rewrite Htable].
    destruct (BorrowType c); by rewrite Htable. }
  rewrite Hentry. unfold afterSwitchOutcome, reported. by rewrite Hreporter.
Qed.

End MigrationBehaviour.

(** Seed scenario 5 returns the id capability [(0x1, 42, &Foo)]. *)
Lemma Migrate_returns_witness :
  @None errors.error = None
  /\ forall replacement,
       Some (interpreter.IDCapability examples.idCapability42) = Some replacement ->
       exists c newCapability newBorrowType,
         interpreter.PathCapability examples.typedCapability = interpreter.PathCapability c
         /\ replacement = interpreter.IDCapability newCapability
         /\ interpreter.IDCapabilityValue_BorrowType newCapability
            = Some (interpreter.ReferenceStaticType_asStaticType newBorrowType)
         /\ interpreter.IDCapabilityValue_Address newCapability = interpreter.address c.
Proof.
  apply (Migrate_returns examples.exampleID examples.exampleMigration
           examples.account1 "x"
           (interpreter.PathCapability examples.typedCapability)).
  vm_compute. reflexivity.
Defined.

(** A public capability is migrated alike with another typed storage
    table. *)
Lemma Migrate_reads_selected_table_witness :
  capcons.Migrate examples.exampleID examples.exampleMigration examples.account1 "x"
    (interpreter.PathCapability examples.typedCapability)
  = capcons.Migrate examples.exampleID examples.otherStorageMigration examples.account1 "x"
      (interpreter.PathCapability examples.typedCapability).
Proof.
  apply (Migrate_reads_selected_table examples.exampleID
           examples.exampleMigration examples.otherStorageMigration
           examples.account1 "x" examples.typedCapability).
  - reflexivity.
  - reflexivity.
Defined.

(** ** More on the skip predicate *)

Section SkipBehaviour.
Import errors common interpreter capcons.

Variable IsDeprecated : PrimitiveStaticType -> bool.
Variable SemaType : PrimitiveStaticType -> sema.Type_.
Variable IsSubType : sema.Type_ -> sema.Type_ -> bool.

Abbreviation skip := (CanSkipCapabilityValueMigration IsDeprecated SemaType IsSubType).

(** X14. The static type of a path capability value is never skipped,
    and neither is a type that holds it as the inner type of an
    optional, the element type of an array or a key or value type of a
    dictionary, at any depth; whatever [IsDeprecated], [SemaType] and
    [IsSubType] say. *)
Theorem CanSkip_never_path_capability
  (m : CapabilityValueMigration) (c : PathCapabilityValue) (t : StaticType) :
  nests (PathCapabilityValue_StaticType c) t ->
  CanSkip IsDeprecated SemaType IsSubType m t = false.
Proof.
  unfold CanSkip.
  induction 1 as [|t _ IH|t _ IH|t n _ IH|k v _ IH|k v _ IH]; simpl; try done.
  - by rewrite IH.
  - by rewrite IH, andb_false_r.
Qed.

(** X15. A type that [CanSkipCapabilityValueMigration] skips is made
    of dictionaries, arrays and optionals over primitive types only:
    it has no reference, composite, interface, intersection or
    capability type in it, and each primitive type in it is one of
    the seven named types or is not deprecated. *)
Theorem CanSkip_only_primitive_data (t : StaticType) :
  skip t = true -> onlyPrimitiveData IsDeprecated t = true.
Proof.
  induction t as [p|t IH|k IHk v IHv|t IH|t IH n|bt|a t IH|i|i|ids]; simpl;
    try discriminate; try exact IH.
  - destruct p; simpl; try discriminate; try reflexivity.
    destruct (IsDeprecated _); simpl; [discriminate | reflexivity].
  - intros [Hk Hv]%andb_true_iff. by rewrite IHk, IHv.
Qed.

End SkipBehaviour.

(** [[Capability<&Foo>]?] is not skipped. *)
Lemma CanSkip_never_path_capability_witness :
  capcons.CanSkip examples.exampleIsDeprecated examples.exampleSemaType
    examples.exampleIsSubType examples.exampleMigration
    (interpreter.OptionalStaticType
       (interpreter.VariableSizedStaticType
          (interpreter.PathCapabilityValue_StaticType examples.typedCapability)))
  = false.
Proof.
  apply (CanSkip_never_path_capability examples.exampleIsDeprecated
           examples.exampleSemaType examples.exampleIsSubType
           examples.exampleMigration examples.typedCapability).
  repeat constructor.
Defined.

(** [{String: [Int]}] is skipped and is primitive data. *)
Lemma CanSkip_only_primitive_data_witness :
  capcons.onlyPrimitiveData examples.exampleIsDeprecated
    (interpreter.DictionaryStaticType
       (interpreter.PrimitiveStaticTypeOf interpreter.PrimitiveStaticTypeString)
       (interpreter.VariableSizedStaticType
          (interpreter.PrimitiveStaticTypeOf (interpreter.PrimitiveStaticTypeOther 36))))
  = true.
Proof.
  apply (CanSkip_only_primitive_data examples.exampleIsDeprecated
           examples.exampleSemaType examples.exampleIsSubType).
  vm_compute. reflexivity.
Defined.
